(** * API-Video-App: the Flask backend [backend/app.py]

    A shallow embedding of the authentication, revocation and playback-token
    code of [backend/app.py], and the properties of it that the
    specification states.

    Conventions of the embedding.
    - A Python [str] is a Rocq [string] holding its UTF-8 bytes, so that
      [s.encode()] is the identity and an ASCII-only [str] is one whose bytes
      are all below 128.  An unpaired surrogate, which only a JSON escape of
      a request body can bring in, shows as its three bytes, and encoding a
      password that has one raises.  [str.strip], [str.lower] and [int] are
      computed on ASCII-only text; on other text they are what the
      environment says they are, so that every theorem holds for the tables
      of any Python.
    - The body of a request is what [request.get_json()] does: it raises,
      or it returns a JSON value of any type.
    - bcrypt is a parameter; it returns or raises.
    - The database is a value of [DB].  Its operations fail where the code
      makes them fail (a duplicate key, a skip or a limit out of range), and
      where a claim is about the failure; a lost connection, or text that
      BSON cannot encode, is not modelled.
    - A [datetime] in UTC is a [Z]: microseconds since 1970-01-01T00:00:00Z.
    - Exceptions are values of [exn]; a computation runs in the monad [M],
      which threads the [World] (database, clock reads, random draws) and keeps
      the writes made before an exception, as Python does.
    - The request decorators ([jwt_required], [limiter.limit]) and the
      signature of a JWT belong to libraries: an endpoint body is modelled as
      it runs once the decorator has accepted the token, and receives the
      decoded claims. *)

From Stdlib Require Import ZArith List String Ascii Bool Lia.
Import ListNotations.
Local Open Scope string_scope.
Local Open Scope Z_scope.

(* ===================================================================== *)
(** ** Python strings and integers *)
(* ===================================================================== *)

Module Py.

Definition ord (c : ascii) : Z := Z.of_N (N_of_ascii c).
Definition chr (z : Z) : ascii := ascii_of_N (Z.to_N z).

Fixpoint bytes_of (s : string) : list Z :=
  match s with
  | EmptyString => []
  | String c r => ord c :: bytes_of r
  end.

(** [PyUnicode_IS_ASCII]: every code point is below 128. *)
Fixpoint isascii (s : string) : bool :=
  match s with
  | EmptyString => true
  | String c r => (ord c <? 128) && isascii r
  end.

(** [len(s)] counts code points: the bytes that are not UTF-8
    continuation bytes (10xxxxxx). *)
Fixpoint len (s : string) : Z :=
  match s with
  | EmptyString => 0
  | String c r => (if Z.land (ord c) 192 =? 128 then 0 else 1) + len r
  end.

(** An unpaired surrogate (U+D800 to U+DFFF) in the text: the byte ED
    followed by a byte from A0 on.  [s.encode('utf-8')] raises on it. *)
Fixpoint has_surrogate (s : string) : bool :=
  match s with
  | EmptyString => false
  | String c r =>
      match r with
      | EmptyString => false
      | String c' _ => ((ord c =? 237) && (160 <=? ord c')) || has_surrogate r
      end
  end.

(** Truthiness of a [str]: [not s] holds for the empty string only. *)
Definition truthy (s : string) : bool :=
  match s with EmptyString => false | _ => true end.

(** The white space of the ASCII range: TAB, LF, VT, FF, CR, FS, GS, RS, US
    and SPACE.  [strip_ascii] and [lower_ascii] are [str.strip()] and
    [str.lower()] on ASCII-only text; the application calls them through
    [str_strip] and [str_lower] below, which leave other text to the
    environment. *)
Definition isspace (c : ascii) : bool :=
  let n := ord c in
  ((9 <=? n) && (n <=? 13)) || ((28 <=? n) && (n <=? 32)).

Fixpoint lstrip (s : string) : string :=
  match s with
  | EmptyString => EmptyString
  | String c r => if isspace c then lstrip r else s
  end.

Fixpoint rstrip (s : string) : string :=
  match s with
  | EmptyString => EmptyString
  | String c r =>
      match rstrip r with
      | EmptyString => if isspace c then EmptyString else String c EmptyString
      | r' => String c r'
      end
  end.

Definition strip_ascii (s : string) : string := rstrip (lstrip s).

Definition lower_char (c : ascii) : ascii :=
  let n := ord c in
  if (65 <=? n) && (n <=? 90) then chr (n + 32) else c.

Fixpoint lower_ascii (s : string) : string :=
  match s with
  | EmptyString => EmptyString
  | String c r => String (lower_char c) (lower_ascii r)
  end.

(** Decimal digits of a natural number, as [str(n)] prints them. *)
Definition digit_char (d : Z) : ascii := chr (48 + d).

Fixpoint digits_fuel (fuel : nat) (n : Z) (acc : string) : string :=
  match fuel with
  | O => acc
  | S f =>
      let acc' := String (digit_char (n mod 10)) acc in
      if n <? 10 then acc' else digits_fuel f (n / 10) acc'
  end.

Definition str_nat (n : Z) : string := digits_fuel (S (Z.to_nat (Z.log2 n))) n "".

(** [f"{n:0{w}d}"] for a non-negative [n]. *)
Fixpoint zeros (k : nat) : string :=
  match k with O => "" | S k' => String "0" (zeros k') end.

Definition zfill (w : nat) (n : Z) : string :=
  let s := str_nat n in
  zeros (w - String.length s) ++ s.

(** [int(s)] on an ASCII-only [str] of at most 4300 characters: optional
    white space around an optional sign and decimal digits, single
    underscores allowed between digits; anything else is a [ValueError]
    ([None]).  Longer strings meet the limit on the digits of an integer in
    some versions of Python, and other text may hold decimal digits and
    white space of other scripts: the application calls [int] through
    [py_int] below, which leaves both to the environment. *)
Definition is_digit (c : ascii) : bool :=
  let n := ord c in (48 <=? n) && (n <=? 57).

Fixpoint int_digits (s : string) (acc : Z) (after_digit : bool) : option Z :=
  match s with
  | EmptyString => if after_digit then Some acc else None
  | String c r =>
      if is_digit c then int_digits r (10 * acc + (ord c - 48)) true
      else if (ord c =? 95) && after_digit then
        match r with
        | String c' _ => if is_digit c' then int_digits r acc false else None
        | EmptyString => None
        end
      else None
  end.

Definition int_of_ascii (s : string) : option Z :=
  match strip_ascii s with
  | String "+" r => int_digits r 0 false
  | String "-" r => option_map Z.opp (int_digits r 0 false)
  | r => int_digits r 0 false
  end.

End Py.

(* ===================================================================== *)
(** ** [hashlib.sha256(data).hexdigest()] (FIPS 180-4) *)
(* ===================================================================== *)

Module SHA256.

Definition mask32 : Z := 4294967295.
Definition wrap (x : Z) : Z := Z.land x mask32.
Definition add32 (x y : Z) : Z := wrap (x + y).
Definition rotr (n x : Z) : Z :=
  Z.lor (Z.shiftr x n) (wrap (Z.shiftl x (32 - n))).
Definition not32 (x : Z) : Z := Z.lxor x mask32.

Definition Ch (x y z : Z) : Z := Z.lxor (Z.land x y) (Z.land (not32 x) z).
Definition Maj (x y z : Z) : Z :=
  Z.lxor (Z.lxor (Z.land x y) (Z.land x z)) (Z.land y z).
Definition bsig0 (x : Z) : Z := Z.lxor (Z.lxor (rotr 2 x) (rotr 13 x)) (rotr 22 x).
Definition bsig1 (x : Z) : Z := Z.lxor (Z.lxor (rotr 6 x) (rotr 11 x)) (rotr 25 x).
Definition ssig0 (x : Z) : Z := Z.lxor (Z.lxor (rotr 7 x) (rotr 18 x)) (Z.shiftr x 3).
Definition ssig1 (x : Z) : Z := Z.lxor (Z.lxor (rotr 17 x) (rotr 19 x)) (Z.shiftr x 10).

(** Round constants: the fractional parts of the cube roots of the first
    sixty-four primes. *)
Definition K : list Z :=
  [ 1116352408; 1899447441; 3049323471; 3921009573; 961987163; 1508970993;
    2453635748; 2870763221; 3624381080; 310598401; 607225278; 1426881987;
    1925078388; 2162078206; 2614888103; 3248222580; 3835390401; 4022224774;
    264347078; 604807628; 770255983; 1249150122; 1555081692; 1996064986;
    2554220882; 2821834349; 2952996808; 3210313671; 3336571891; 3584528711;
    113926993; 338241895; 666307205; 773529912; 1294757372; 1396182291;
    1695183700; 1986661051; 2177026350; 2456956037; 2730485921; 2820302411;
    3259730800; 3345764771; 3516065817; 3600352804; 4094571909; 275423344;
    430227734; 506948616; 659060556; 883997877; 958139571; 1322822218;
    1537002063; 1747873779; 1955562222; 2024104815; 2227730452; 2361852424;
    2428436474; 2756734187; 3204031479; 3329325298 ].

(** Initial hash value: from the square roots of the first eight primes. *)
Definition H0 : list Z :=
  [ 1779033703; 3144134277; 1013904242; 2773480762;
    1359893119; 2600822924; 528734635; 1541459225 ].

(** Padding: a 1 bit, zeros up to 56 mod 64, the bit length on 8 bytes. *)
Definition be_bytes (n : nat) (x : Z) : list Z :=
  map (fun i => Z.land (Z.shiftr x (8 * Z.of_nat i)) 255) (rev (seq 0 n)).

Definition pad (msg : list Z) : list Z :=
  let l := Z.of_nat (List.length msg) in
  let k := Z.to_nat ((55 - l) mod 64) in
  msg ++ [128] ++ repeat 0 k ++ be_bytes 8 (8 * l).

Fixpoint words (bs : list Z) : list Z :=
  match bs with
  | a :: b :: c :: d :: r =>
      (Z.shiftl a 24 + Z.shiftl b 16 + Z.shiftl c 8 + d) :: words r
  | _ => []
  end.

(** Message schedule.  [rw] holds the words computed so far, newest
    first, so that W[t-2], W[t-7], W[t-15], W[t-16] are at 1, 6, 14, 15. *)
Fixpoint schedule (n : nat) (rw : list Z) : list Z :=
  match n with
  | O => rev rw
  | S n' =>
      let w := add32 (add32 (ssig1 (nth 1 rw 0)) (nth 6 rw 0))
                     (add32 (ssig0 (nth 14 rw 0)) (nth 15 rw 0)) in
      schedule n' (w :: rw)
  end.

Record regs := Regs { ra : Z; rb : Z; rc : Z; rd : Z; re : Z; rf : Z; rg : Z; rh : Z }.

Definition round (s : regs) (kw : Z * Z) : regs :=
  let t1 := add32 (add32 (add32 (rh s) (bsig1 (re s))) (Ch (re s) (rf s) (rg s)))
                  (add32 (fst kw) (snd kw)) in
  let t2 := add32 (bsig0 (ra s)) (Maj (ra s) (rb s) (rc s)) in
  Regs (add32 t1 t2) (ra s) (rb s) (rc s) (add32 (rd s) t1) (re s) (rf s) (rg s).

Definition regs_of (h : list Z) : regs :=
  Regs (nth 0 h 0) (nth 1 h 0) (nth 2 h 0) (nth 3 h 0)
       (nth 4 h 0) (nth 5 h 0) (nth 6 h 0) (nth 7 h 0).

Definition list_of (s : regs) : list Z :=
  [ra s; rb s; rc s; rd s; re s; rf s; rg s; rh s].

Definition compress (h : list Z) (block : list Z) : list Z :=
  let w := schedule 48 (rev (words block)) in
  let s := fold_left round (combine K w) (regs_of h) in
  map (fun p => add32 (fst p) (snd p)) (combine h (list_of s)).

Fixpoint blocks (n : nat) (h : list Z) (bs : list Z) : list Z :=
  match n with
  | O => h
  | S n' => blocks n' (compress h (firstn 64 bs)) (skipn 64 bs)
  end.

Definition digest (msg : list Z) : list Z :=
  let p := pad msg in
  blocks (List.length p / 64) H0 p.

Definition hex_char (d : Z) : ascii :=
  if d <? 10 then Py.chr (48 + d) else Py.chr (87 + d).

Fixpoint hex_nibbles (n : nat) (x : Z) (acc : string) : string :=
  match n with
  | O => acc
  | S n' => hex_nibbles n' (Z.shiftr x 4) (String (hex_char (Z.land x 15)) acc)
  end.

Fixpoint hex_words (ws : list Z) : string :=
  match ws with
  | [] => ""
  | w :: r => hex_nibbles 8 w "" ++ hex_words r
  end.

Definition hexdigest (data : string) : string :=
  hex_words (digest (Py.bytes_of data)).

End SHA256.

(* ===================================================================== *)
(** ** [datetime]: UTC instants and [isoformat()] *)
(* ===================================================================== *)

Module DateTime.

Definition usec_per_sec : Z := 1000000.
Definition usec_per_hour : Z := 3600 * usec_per_sec.
Definition usec_per_day : Z := 24 * usec_per_hour.

(** [timedelta(hours=h)], [timedelta(minutes=m)], [timedelta(days=d)]. *)
Definition hours (h : Z) : Z := h * usec_per_hour.
Definition minutes (m : Z) : Z := m * 60 * usec_per_sec.
Definition days (d : Z) : Z := d * usec_per_day.

(** Proleptic Gregorian date of a day number counted from 1970-01-01. *)
Definition civil (day : Z) : Z * Z * Z :=
  let z := day + 719468 in
  let era := z / 146097 in
  let doe := z - era * 146097 in
  let yoe := (doe - doe / 1460 + doe / 36524 - doe / 146096) / 365 in
  let doy := doe - (365 * yoe + yoe / 4 - yoe / 100) in
  let mp := (5 * doy + 2) / 153 in
  let d := doy - (153 * mp + 2) / 5 + 1 in
  let m := if mp <? 10 then mp + 3 else mp - 9 in
  let y := yoe + era * 400 + (if m <=? 2 then 1 else 0) in
  (y, m, d).

(** [dt.isoformat()] of an aware UTC datetime:
    YYYY-MM-DDTHH:MM:SS[.ffffff]+00:00, the fraction being left out when
    the microsecond field is zero. *)
Definition isoformat (t : Z) : string :=
  let day := t / usec_per_day in
  let rest := t mod usec_per_day in
  let '(y, m, d) := civil day in
  let hh := rest / usec_per_hour in
  let mm := (rest mod usec_per_hour) / (60 * usec_per_sec) in
  let ss := (rest mod (60 * usec_per_sec)) / usec_per_sec in
  let us := rest mod usec_per_sec in
  Py.zfill 4 y ++ "-" ++ Py.zfill 2 m ++ "-" ++ Py.zfill 2 d ++ "T"
    ++ Py.zfill 2 hh ++ ":" ++ Py.zfill 2 mm ++ ":" ++ Py.zfill 2 ss
    ++ (if us =? 0 then "" else "." ++ Py.zfill 6 us)
    ++ "+00:00".

(** [dt.isoformat()] of a naive datetime: as above, without the offset. *)
Definition isoformat_naive (t : Z) : string :=
  let day := t / usec_per_day in
  let rest := t mod usec_per_day in
  let '(y, m, d) := civil day in
  let hh := rest / usec_per_hour in
  let mm := (rest mod usec_per_hour) / (60 * usec_per_sec) in
  let ss := (rest mod (60 * usec_per_sec)) / usec_per_sec in
  let us := rest mod usec_per_sec in
  Py.zfill 4 y ++ "-" ++ Py.zfill 2 m ++ "-" ++ Py.zfill 2 d ++ "T"
    ++ Py.zfill 2 hh ++ ":" ++ Py.zfill 2 mm ++ ":" ++ Py.zfill 2 ss
    ++ (if us =? 0 then "" else "." ++ Py.zfill 6 us).

(** A datetime read back from MongoDB: BSON keeps the milliseconds, and
    the driver returns a naive datetime in UTC. *)
Definition from_bson (t : Z) : Z := t - t mod 1000.

(** [doc['created_at'].isoformat()] on a document read from the database. *)
Definition isoformat_stored (t : Z) : string := isoformat_naive (from_bson t).

(** The one-hour time bucket of an instant, as the specification
    describes it; the code never computes it. *)
Definition hour_bucket (t : Z) : Z := t / usec_per_hour.

End DateTime.

(* ===================================================================== *)
(** ** Exceptions, the world and the monad of request handlers *)
(* ===================================================================== *)

Inductive exn : Set :=
| TypeError
| ValueError
| ZeroDivisionError
| AttributeError
| OverflowError
| UnicodeEncodeError
| HTTPException
| DuplicateKeyError
| PyMongoError.

Inductive result (A : Type) : Type :=
| Ok (a : A)
| Raise (e : exn).
Arguments Ok {A} a.
Arguments Raise {A} e.

(** *** Documents of the four collections *)

Record User := mkUser {
  u_id : string;
  u_name : string;
  u_email : string;
  u_password_hash : string;
  u_created_at : Z;
  u_updated_at : Z;
  u_is_active : option bool;
  u_last_login : option Z
}.

Record Video := mkVideo {
  v_id : string;
  v_title : string;
  v_description : string;
  v_youtube_id : string;
  v_thumbnail_url : string;
  v_is_active : option bool;
  v_created_at : option Z
}.

Record RevokedToken := mkRevoked {
  r_jti : string;
  r_user_id : string;
  r_revoked_at : Z
}.

Record WatchEvent := mkWatch {
  w_user_id : string;
  w_video_id : string;
  w_watched_at : Z;
  w_action : string
}.

(** The database: the documents of each collection in insertion order, and
    which of the indexes of the [__main__] block exist (their creation runs
    only when the module is the entry point, and its failure is tolerated). *)
Record DB := mkDB {
  users : list User;
  videos : list Video;
  tokens : list RevokedToken;
  watch_history : list WatchEvent;
  idx_users_email : bool;
  idx_tokens_jti : bool;
  idx_tokens_ttl : bool
}.

(** What a run draws from outside: the configured secret, the readings of
    the clock in the order of the calls to [datetime.now], the random draws
    of [uuid.uuid4] and [bcrypt.gensalt], bcrypt itself, which returns or
    raises ([ValueError] on a malformed hash and, in some versions, on a
    password of more than 72 bytes), what [str.strip], [str.lower] and
    [int] do outside the text on which this file computes them, and the
    number of documents that the server puts in the first batch of a cursor
    (101 unless they are large). *)
Record Env := mkEnv {
  SECRET_KEY : string;
  clock : nat -> Z;
  uuid4 : nat -> string;
  gensalt : nat -> string;
  bcrypt_hashpw : string -> string -> result string;
  bcrypt_checkpw : string -> string -> result bool;
  strip_other : string -> string;
  lower_other : string -> string;
  int_other : string -> option Z;
  first_batch : nat
}.

(** [s.strip()] *)
Definition str_strip (env : Env) (s : string) : string :=
  if Py.isascii s then Py.strip_ascii s else strip_other env s.

(** [s.lower()] *)
Definition str_lower (env : Env) (s : string) : string :=
  if Py.isascii s then Py.lower_ascii s else lower_other env s.

(** [int(s)] on a [str]; [None] is a [ValueError]. *)
Definition py_int (env : Env) (s : string) : option Z :=
  if Py.isascii s && (String.length s <=? 4300)%nat
  then Py.int_of_ascii s
  else int_other env s.

Record World := mkWorld {
  db : DB;
  ticks : nat;
  draws : nat
}.

Definition M (A : Type) : Type := World -> result A * World.

Definition ret {A} (a : A) : M A := fun w => (Ok a, w).

Definition raise {A} (e : exn) : M A := fun w => (Raise e, w).

Definition bind {A B} (m : M A) (k : A -> M B) : M B :=
  fun w =>
    match m w with
    | (Ok a, w') => k a w'
    | (Raise e, w') => (Raise e, w')
    end.

(** [try: m except Exception as e: h e] *)
Definition try_except {A} (m : M A) (h : exn -> M A) : M A :=
  fun w =>
    match m w with
    | (Ok a, w') => (Ok a, w')
    | (Raise e, w') => h e w'
    end.

Definition lift {A} (r : result A) : M A := fun w => (r, w).

Declare Scope m_scope.
Delimit Scope m_scope with M.
Notation "x <- m ;; k" := (bind m (fun x => k))
  (at level 61, m at next level, right associativity) : m_scope.
Notation "m ;;; k" := (bind m (fun _ => k))
  (at level 61, right associativity) : m_scope.
Local Open Scope m_scope.

Definition get_db : M DB := fun w => (Ok (db w), w).

Definition put_db (d : DB) : M unit :=
  fun w => (Ok tt, mkWorld d (ticks w) (draws w)).

(* ===================================================================== *)
(** ** Collections *)
(* ===================================================================== *)

Definition set_users (d : DB) (l : list User) : DB :=
  mkDB l (videos d) (tokens d) (watch_history d)
       (idx_users_email d) (idx_tokens_jti d) (idx_tokens_ttl d).

Definition set_tokens (d : DB) (l : list RevokedToken) : DB :=
  mkDB (users d) (videos d) l (watch_history d)
       (idx_users_email d) (idx_tokens_jti d) (idx_tokens_ttl d).

Definition set_watch_history (d : DB) (l : list WatchEvent) : DB :=
  mkDB (users d) (videos d) (tokens d) l
       (idx_users_email d) (idx_tokens_jti d) (idx_tokens_ttl d).

(** [get_user_collection().find_one({'email': email})] *)
Definition find_user_by_email (email : string) (d : DB) : option User :=
  find (fun u => String.eqb (u_email u) email) (users d).

(** [get_user_collection().find_one({'_id': user_id})] *)
Definition find_user_by_id (user_id : string) (d : DB) : option User :=
  find (fun u => String.eqb (u_id u) user_id) (users d).

(** [get_video_collection().find_one({'_id': video_id})] *)
Definition find_video_by_id (video_id : string) (d : DB) : option Video :=
  find (fun v => String.eqb (v_id v) video_id) (videos d).

(** The filter [{'is_active': True}]: the field is present and true. *)
Definition video_active (v : Video) : bool :=
  match v_is_active v with Some true => true | _ => false end.

(** [get_token_collection().find_one({'jti': jti})] *)
Definition find_token_by_jti (jti : string) (d : DB) : option RevokedToken :=
  find (fun r => String.eqb (r_jti r) jti) (tokens d).

(** [get_user_collection().insert_one(user)]: the [_id] index is always
    unique, the one on [email] when it was created. *)
Definition users_insert_one (u : User) : M unit :=
  d <- get_db ;;
  if existsb (fun x => String.eqb (u_id x) (u_id u)) (users d)
     || (idx_users_email d
         && existsb (fun x => String.eqb (u_email x) (u_email u)) (users d))
  then raise DuplicateKeyError
  else put_db (set_users d (users d ++ [u])).

(** [get_token_collection().insert_one(entry)]: the document gets a fresh
    [ObjectId]; the [jti] index rejects a duplicate when it was created. *)
Definition tokens_insert_one (r : RevokedToken) : M unit :=
  d <- get_db ;;
  if idx_tokens_jti d
     && existsb (fun x => String.eqb (r_jti x) (r_jti r)) (tokens d)
  then raise DuplicateKeyError
  else put_db (set_tokens d (tokens d ++ [r])).

(** [get_watch_history_collection().insert_one(event)].  [fault] is the
    failure of the driver or the server at this call, when there is one. *)
Definition watch_history_insert_one (fault : option exn) (e : WatchEvent) : M unit :=
  match fault with
  | Some x => raise x
  | None =>
      d <- get_db ;;
      put_db (set_watch_history d (watch_history d ++ [e]))
  end.

(** [update_one({'_id': id}, {'$set': {'last_login': t}})]: the first
    document with that [_id], if any. *)
Fixpoint set_last_login (id : string) (t : Z) (l : list User) : list User :=
  match l with
  | [] => []
  | u :: r =>
      if String.eqb (u_id u) id
      then mkUser (u_id u) (u_name u) (u_email u) (u_password_hash u)
                  (u_created_at u) (u_updated_at u) (u_is_active u) (Some t) :: r
      else u :: set_last_login id t r
  end.

Definition users_update_last_login (id : string) (t : Z) : M unit :=
  d <- get_db ;;
  put_db (set_users d (set_last_login id t (users d))).

(** The largest integer that BSON encodes. *)
Definition INT64_MAX : Z := 9223372036854775807.

(** [Cursor.skip(n)] raises [ValueError] for a negative [n];
    [Cursor.limit(n)] sets no limit for 0 and takes [abs(n)] otherwise, and
    for a negative [n] the cursor is closed after its first batch, of
    [batch] documents at most.  When the cursor is read, a skip or a limit
    that does not fit in eight bytes cannot be encoded: [OverflowError]. *)
Definition cursor_skip {A} (n : Z) (l : list A) : result (list A) :=
  if n <? 0 then Raise ValueError
  else if INT64_MAX <? n then Raise OverflowError
  else Ok (skipn (Z.to_nat n) l).

Definition cursor_limit {A} (batch : nat) (n : Z) (l : list A) : result (list A) :=
  if INT64_MAX <? Z.abs n then Raise OverflowError
  else if n =? 0 then Ok l
  else if n <? 0 then Ok (firstn (Nat.min (Z.to_nat (Z.abs n)) batch) l)
  else Ok (firstn (Z.to_nat n) l).

(** The TTL monitor of the server, running at [now]: with the index on
    [revoked_at] ([expireAfterSeconds] = 7 * 24 * 60 * 60), it deletes the
    entries that are seven days old or more. *)
Definition expireAfterSeconds : Z := 7 * 24 * 60 * 60.

Definition purge_eligible (now : Z) (r : RevokedToken) : bool :=
  r_revoked_at r + expireAfterSeconds * DateTime.usec_per_sec <=? now.

Definition ttl_purge (now : Z) (d : DB) : DB :=
  if idx_tokens_ttl d
  then set_tokens d (filter (fun r => negb (purge_eligible now r)) (tokens d))
  else d.

(* ===================================================================== *)
(** ** The application *)
(* ===================================================================== *)

Inductive token_type : Set := Access | RefreshT.

(** The claims of a token of [flask_jwt_extended].  The signed string is
    abstracted to the claims it carries. *)
Record Claims := mkClaims {
  jti : string;
  sub : string;
  typ : token_type;
  iat : Z;
  exp : Z
}.

Record Tokens := mkTokens {
  access_token : Claims;
  refresh_token : Claims;
  token_type_ : string;
  expires_in : Z
}.

(** *** Requests and responses *)

(** A JSON value as [request.get_json()] returns it.  Of a float the
    application only ever tests whether it is zero. *)
#[local] Unset Elimination Schemes.
Inductive jvalue : Type :=
| JNull
| JBool (b : bool)
| JInt (n : Z)
| JFloat (nonzero : bool)
| JStr (s : string)
| JList (items : list jvalue)
| JDict (fields : list (string * jvalue)).
#[local] Set Elimination Schemes.

(** The fields of a JSON object, each key once. *)
Definition json : Type := list (string * jvalue).

(** Truthiness: [not v] holds for [None], [False], zero and the empty
    string, list and dict. *)
Definition jtruthy (v : jvalue) : bool :=
  match v with
  | JNull => false
  | JBool b => b
  | JInt n => negb (n =? 0)
  | JFloat nonzero => nonzero
  | JStr s => Py.truthy s
  | JList items => match items with [] => false | _ => true end
  | JDict fields => match fields with [] => false | _ => true end
  end.

(** [len(v)]: [TypeError] on [None], booleans and numbers. *)
Definition jlen (v : jvalue) : result Z :=
  match v with
  | JStr s => Ok (Py.len s)
  | JList items => Ok (Z.of_nat (List.length items))
  | JDict fields => Ok (Z.of_nat (List.length fields))
  | _ => Raise TypeError
  end.

(** [d.get(key, default)] on a dict *)
Fixpoint dict_get (key : string) (default : jvalue) (data : json) : jvalue :=
  match data with
  | [] => default
  | (k, v) :: r => if String.eqb k key then v else dict_get key default r
  end.

(** [data.get(key, default)]: only a dict has [get]. *)
Definition jget (data : jvalue) (key : string) (default : jvalue) : result jvalue :=
  match data with
  | JDict fields => Ok (dict_get key default fields)
  | _ => Raise AttributeError
  end.

(** [v.strip()]: only a [str] has [strip]. *)
Definition jstrip (env : Env) (v : jvalue) : result string :=
  match v with
  | JStr s => Ok (str_strip env s)
  | _ => Raise AttributeError
  end.

(** [v.encode('utf-8')]: only a [str] has [encode], and an unpaired
    surrogate cannot be encoded. *)
Definition jencode (v : jvalue) : result string :=
  match v with
  | JStr s => if Py.has_surrogate s then Raise UnicodeEncodeError else Ok s
  | _ => Raise AttributeError
  end.

Record UserView := mkUserView {
  uv_id : string;
  uv_name : string;
  uv_email : string
}.

Record VideoCard := mkCard {
  c_id : string;
  c_title : string;
  c_description : string;
  c_thumbnail_url : string;
  c_playback_token : string;
  c_created_at : string
}.

Record Pagination := mkPagination {
  pg_page : Z;
  pg_per_page : Z;
  pg_total : Z;
  pg_total_pages : Z
}.

Record Stream := mkStream {
  st_type : string;
  st_embed_url : string;
  st_poster_url : string
}.

(** The JSON documents that [jsonify] is given. *)
Inductive body : Type :=
| ErrorBody (error : string)
| MessageBody (message : string)
| AuthBody (message : string) (user : UserView) (tokens : Tokens)
| RefreshBody (access_token : Claims) (token_type : string) (expires_in : Z)
| ProfileBody (id name email : string) (created_at : string)
| DashboardBody (videos : list VideoCard) (pagination : Pagination)
| StreamBody (video_id title description thumbnail_url : string) (stream : Stream).

(** A response: the JSON body and the status code. *)
Definition Response : Type := body * Z.

Section App.

Variable env : Env.

(** [datetime.now(timezone.utc)]: the next reading of the clock. *)
Definition datetime_now : M Z :=
  fun w => (Ok (clock env (ticks w)), mkWorld (db w) (S (ticks w)) (draws w)).

(** [str(uuid.uuid4())] *)
Definition uuid_uuid4 : M string :=
  fun w => (Ok (uuid4 env (draws w)), mkWorld (db w) (ticks w) (S (draws w))).

(** *** JWT token blacklist *)

Definition check_if_token_revoked (jwt_payload : Claims) (d : DB) : bool :=
  let jti := jti jwt_payload in
  let token := find_token_by_jti jti d in
  match token with Some _ => true | None => false end.

(** *** Authentication utils *)

(** [bcrypt.gensalt(rounds=12)] *)
Definition bcrypt_gensalt : M string :=
  fun w => (Ok (gensalt env (draws w)), mkWorld (db w) (ticks w) (S (draws w))).

Definition hash_password (password : jvalue) : M string :=
  salt <- bcrypt_gensalt ;;
  encoded <- lift (jencode password) ;;
  lift (bcrypt_hashpw env encoded salt).

Definition verify_password (password : jvalue) (hashed : string) : result bool :=
  match jencode password with
  | Ok encoded => bcrypt_checkpw env encoded hashed
  | Raise e => Raise e
  end.

(** [JWT_ACCESS_TOKEN_EXPIRES] and [JWT_REFRESH_TOKEN_EXPIRES] *)
Definition JWT_ACCESS_TOKEN_EXPIRES : Z := DateTime.minutes 15.
Definition JWT_REFRESH_TOKEN_EXPIRES : Z := DateTime.days 7.

Definition create_access_token (identity : string) : M Claims :=
  now <- datetime_now ;;
  id <- uuid_uuid4 ;;
  ret (mkClaims id identity Access now (now + JWT_ACCESS_TOKEN_EXPIRES)).

Definition create_refresh_token (identity : string) : M Claims :=
  now <- datetime_now ;;
  id <- uuid_uuid4 ;;
  ret (mkClaims id identity RefreshT now (now + JWT_REFRESH_TOKEN_EXPIRES)).

Definition generate_tokens (user_id : string) : M Tokens :=
  access_token <- create_access_token user_id ;;
  refresh_token <- create_refresh_token user_id ;;
  ret (mkTokens access_token refresh_token "Bearer" 900).

Definition playback_data (video_id user_id timestamp : string) : string :=
  video_id ++ ":" ++ user_id ++ ":" ++ timestamp ++ ":" ++ SECRET_KEY env.

Definition generate_playback_token (video_id user_id : string) : M string :=
  now <- datetime_now ;;
  let timestamp := DateTime.isoformat now in
  let data := playback_data video_id user_id timestamp in
  ret (SHA256.hexdigest data).

(** [secrets.compare_digest(a, b)] on two [str]: [TypeError] unless both
    are ASCII-only, else whether they are equal. *)
Definition compare_digest (a b : string) : result bool :=
  if Py.isascii a && Py.isascii b then Ok (String.eqb a b) else Raise TypeError.

Fixpoint verify_playback_loop (offsets : list Z)
         (video_id user_id token : string) : M bool :=
  match offsets with
  | [] => ret false
  | hour_offset :: rest =>
      now <- datetime_now ;;
      let timestamp := DateTime.isoformat (now - DateTime.hours hour_offset) in
      let data := playback_data video_id user_id timestamp in
      let expected := SHA256.hexdigest data in
      same <- lift (compare_digest token expected) ;;
      if same then ret true
      else verify_playback_loop rest video_id user_id token
  end.

Definition verify_playback_token (video_id user_id token : string) : M bool :=
  verify_playback_loop [0; 1; 2] video_id user_id token.

(** *** Authentication endpoints *)

(** [POST /api/auth/signup].  [get_json] is what [request.get_json()]
    does. *)
Definition signup (get_json : result jvalue) : M Response :=
  try_except
    (data <- lift get_json ;;
     if negb (jtruthy data) then ret (ErrorBody "No data provided", 400)
     else
       name_field <- lift (jget data "name" (JStr "")) ;;
       name <- lift (jstrip env name_field) ;;
       email_field <- lift (jget data "email" (JStr "")) ;;
       email_stripped <- lift (jstrip env email_field) ;;
       let email := str_lower env email_stripped in
       password <- lift (jget data "password" (JStr "")) ;;
       if negb (Py.truthy name) || negb (Py.truthy email)
          || negb (jtruthy password)
       then ret (ErrorBody "Name, email, and password are required", 400)
       else
         length <- lift (jlen password) ;;
         if length <? 6
         then ret (ErrorBody "Password must be at least 6 characters", 400)
         else
           d <- get_db ;;
           match find_user_by_email email d with
           | Some _ => ret (ErrorBody "Email already registered", 409)
           | None =>
               id <- uuid_uuid4 ;;
               password_hash <- hash_password password ;;
               created_at <- datetime_now ;;
               updated_at <- datetime_now ;;
               let user := mkUser id name email password_hash
                                  created_at updated_at (Some true) None in
               users_insert_one user ;;;
               tokens <- generate_tokens (u_id user) ;;
               ret (AuthBody "User registered successfully"
                      (mkUserView (u_id user) (u_name user) (u_email user))
                      tokens, 201)
           end)
    (fun _ => ret (ErrorBody "Internal server error", 500)).

(** [POST /api/auth/login] *)
Definition login (get_json : result jvalue) : M Response :=
  try_except
    (data <- lift get_json ;;
     if negb (jtruthy data) then ret (ErrorBody "No data provided", 400)
     else
       email_field <- lift (jget data "email" (JStr "")) ;;
       email_stripped <- lift (jstrip env email_field) ;;
       let email := str_lower env email_stripped in
       password <- lift (jget data "password" (JStr "")) ;;
       if negb (Py.truthy email) || negb (jtruthy password)
       then ret (ErrorBody "Email and password are required", 400)
       else
         d <- get_db ;;
         match find_user_by_email email d with
         | None => ret (ErrorBody "Invalid credentials", 401)
         | Some user =>
             verified <- lift (verify_password password (u_password_hash user)) ;;
             if negb verified
             then ret (ErrorBody "Invalid credentials", 401)
             else
               match u_is_active user with
               | Some false => ret (ErrorBody "Account is deactivated", 403)
               | _ =>
                   tokens <- generate_tokens (u_id user) ;;
                   now <- datetime_now ;;
                   users_update_last_login (u_id user) now ;;;
                   ret (AuthBody "Login successful"
                          (mkUserView (u_id user) (u_name user) (u_email user))
                          tokens, 200)
               end
         end)
    (fun _ => ret (ErrorBody "Internal server error", 500)).

(** [POST /api/auth/refresh], under [jwt_required(refresh=True)];
    [user_id] is [get_jwt_identity()]. *)
Definition refresh (user_id : string) : M Response :=
  try_except
    (d <- get_db ;;
     match find_user_by_id user_id d with
     | None => ret (ErrorBody "User not found", 404)
     | Some _ =>
         access_token <- create_access_token user_id ;;
         ret (RefreshBody access_token "Bearer" 900, 200)
     end)
    (fun _ => ret (ErrorBody "Internal server error", 500)).

(** [GET /api/auth/me], under [jwt_required()].  The user comes from the
    database, and so does its [created_at]. *)
Definition get_current_user (user_id : string) : M Response :=
  try_except
    (d <- get_db ;;
     match find_user_by_id user_id d with
     | None => ret (ErrorBody "User not found", 404)
     | Some user =>
         ret (ProfileBody (u_id user) (u_name user) (u_email user)
                (DateTime.isoformat_stored (u_created_at user)), 200)
     end)
    (fun _ => ret (ErrorBody "Internal server error", 500)).

(** [POST /api/auth/logout], under [jwt_required()]; [token] is
    [get_jwt()], whose [sub] is [get_jwt_identity()]. *)
Definition logout (token : Claims) : M Response :=
  try_except
    (let jti := jti token in
     let user_id := sub token in
     revoked_at <- datetime_now ;;
     tokens_insert_one (mkRevoked jti user_id revoked_at) ;;;
     ret (MessageBody "Logout successful", 200))
    (fun _ => ret (ErrorBody "Internal server error", 500)).

(** *** Video endpoints *)

(** [int(request.args.get(name, default))] *)
Definition int_arg (arg : option string) (default : Z) : M Z :=
  match arg with
  | None => ret default
  | Some s =>
      match py_int env s with
      | Some n => ret n
      | None => raise ValueError
      end
  end.

(** [a // b] *)
Definition floordiv (a b : Z) : M Z :=
  if b =? 0 then raise ZeroDivisionError else ret (a / b).

(** The loop of [get_dashboard] over the page of videos.  The default of
    [video.get('created_at', datetime.now(timezone.utc))] is evaluated at
    every turn; it is an aware datetime, where a stored [created_at] comes
    back from the database. *)
Fixpoint dashboard_cards (user_id : string) (page : list Video) : M (list VideoCard) :=
  match page with
  | [] => ret []
  | video :: rest =>
      playback_token <- generate_playback_token (v_id video) user_id ;;
      now <- datetime_now ;;
      let created_at :=
        match v_created_at video with
        | Some t => DateTime.isoformat_stored t
        | None => DateTime.isoformat now
        end in
      let card := mkCard (v_id video) (v_title video) (v_description video)
                         (v_thumbnail_url video) playback_token created_at in
      cards <- dashboard_cards user_id rest ;;
      ret (card :: cards)
  end.

(** [GET /api/dashboard], under [jwt_required()] *)
Definition get_dashboard (user_id : string) (arg_page arg_per_page : option string)
  : M Response :=
  try_except
    (page <- int_arg arg_page 1 ;;
     per_page <- int_arg arg_per_page 2 ;;
     d <- get_db ;;
     skipped <- lift (cursor_skip ((page - 1) * per_page)
                        (filter video_active (videos d))) ;;
     videos_page <- lift (cursor_limit (first_batch env) per_page skipped) ;;
     let total := Z.of_nat (List.length (filter video_active (videos d))) in
     result <- dashboard_cards user_id videos_page ;;
     total_pages <- floordiv (total + per_page - 1) per_page ;;
     ret (DashboardBody result (mkPagination page per_page total total_pages), 200))
    (fun _ => ret (ErrorBody "Internal server error", 500)).

(** The descriptor that [get_video_stream] builds in [stream_data]. *)
Definition stream_data (video_id : string) (video : Video) : body :=
  let youtube_id := v_youtube_id video in
  StreamBody video_id (v_title video) (v_description video)
    (v_thumbnail_url video)
    (mkStream "youtube_embed"
       ("https://www.youtube.com/embed/" ++ youtube_id)
       (v_thumbnail_url video)).

(** [GET /api/video/<video_id>/stream], under [jwt_required()].
    [arg_token] is [request.args.get('token')]; [log_fault] is the failure
    of the insertion into the watch history, when there is one. *)
Definition get_video_stream (user_id video_id : string) (arg_token : option string)
           (log_fault : option exn) : M Response :=
  try_except
    (valid <- match arg_token with
              | None | Some EmptyString => ret false
              | Some token => verify_playback_token video_id user_id token
              end ;;
     if negb valid then ret (ErrorBody "Invalid or expired token", 403)
     else
       d <- get_db ;;
       match find_video_by_id video_id d with
       | None => ret (ErrorBody "Video not found", 404)
       | Some video =>
           match v_is_active video with
           | Some false => ret (ErrorBody "Video is not available", 403)
           | _ =>
               let stream_data := stream_data video_id video in
               try_except
                 (watched_at <- datetime_now ;;
                  watch_history_insert_one log_fault
                    (mkWatch user_id video_id watched_at "stream_requested"))
                 (fun _ => ret tt) ;;;
               ret (stream_data, 200)
           end
       end)
    (fun _ => ret (ErrorBody "Internal server error", 500)).

End App.

(* ===================================================================== *)
(** ** Runs of the service *)
(* ===================================================================== *)

(** The requests of the modelled endpoints, with what the decorator hands
    to the body.  [track_video_watch], [seed_videos] and [health_check]
    never touch the revocation registry and are left out. *)
Inductive request : Type :=
| Signup (get_json : result jvalue)
| Login (get_json : result jvalue)
| Refresh (user_id : string)
| Me (user_id : string)
| Logout (token : Claims)
| Dashboard (user_id : string) (page per_page : option string)
| VideoStream (user_id video_id : string) (token : option string)
              (log_fault : option exn).

Definition handle (env : Env) (r : request) : M Response :=
  match r with
  | Signup get_json => signup env get_json
  | Login get_json => login env get_json
  | Refresh user_id => refresh env user_id
  | Me user_id => get_current_user user_id
  | Logout token => logout env token
  | Dashboard user_id page per_page => get_dashboard env user_id page per_page
  | VideoStream user_id video_id token log_fault =>
      get_video_stream env user_id video_id token log_fault
  end.

(** What happens to the world: a request is served, or the TTL monitor of
    the database runs at some instant. *)
Inductive event : Type :=
| Serve (r : request)
| TTLPurge (now : Z).

Definition step (env : Env) (w : World) (e : event) : World :=
  match e with
  | Serve r => snd (handle env r w)
  | TTLPurge now => mkWorld (ttl_purge now (db w)) (ticks w) (draws w)
  end.

Definition run (env : Env) (w : World) (evs : list event) : World :=
  fold_left (step env) evs w.

(* ===================================================================== *)
(** ** Admin endpoint: seeding the videos *)
(* ===================================================================== *)

Definition set_videos (d : DB) (l : list Video) : DB :=
  mkDB (users d) l (tokens d) (watch_history d)
       (idx_users_email d) (idx_tokens_jti d) (idx_tokens_ttl d).

(** [get_video_collection().insert_many(docs)], ordered: the documents are
    inserted one after the other, and the first whose [_id] is already
    there stops the insertion with a [BulkWriteError] (a [PyMongoError]);
    those before it stay. *)
Fixpoint videos_insert_many (docs : list Video) : M unit :=
  match docs with
  | [] => ret tt
  | v :: rest =>
      d <- get_db ;;
      if existsb (fun x => String.eqb (v_id x) (v_id v)) (videos d)
      then raise PyMongoError
      else put_db (set_videos d (videos d ++ [v])) ;;;
           videos_insert_many rest
  end.

Section Admin.

Variable env : Env.

(** One dictionary of [sample_videos]: [_id] is drawn first, [created_at]
    read last. *)
Definition sample_video (title description youtube_id thumbnail_url : string)
  : M Video :=
  id <- uuid_uuid4 env ;;
  created_at <- datetime_now env ;;
  ret (mkVideo id title description youtube_id thumbnail_url
               (Some true) (Some created_at)).

(** [POST /api/admin/seed-videos] *)
Definition seed_videos : M Response :=
  try_except
    (d <- get_db ;;
     if 0 <? Z.of_nat (List.length (videos d))
     then ret (MessageBody "Videos already seeded", 200)
     else
       v1 <- sample_video "How Startups Fail"
               "Lessons from real founders about common pitfalls and how to avoid them in your startup journey."
               "J8M5dPRcNus"
               "https://img.youtube.com/vi/J8M5dPRcNus/maxresdefault.jpg" ;;
       v2 <- sample_video "The Art of Product Management"
               "Learn the essential skills and frameworks used by top product managers at leading tech companies."
               "huTSPanXdqg"
               "https://img.youtube.com/vi/huTSPanXdqg/maxresdefault.jpg" ;;
       v3 <- sample_video "Building Scalable Systems"
               "Architecture patterns and best practices for building systems that can handle millions of users."
               "9n8hP4dQEEw"
               "https://img.youtube.com/vi/9n8hP4dQEEw/maxresdefault.jpg" ;;
       v4 <- sample_video "Design Thinking Workshop"
               "A hands-on workshop covering the design thinking methodology for solving complex problems."
               "5VCPyrU0qVQ"
               "https://img.youtube.com/vi/5VCPyrU0qVQ/maxresdefault.jpg" ;;
       let sample_videos := [v1; v2; v3; v4] in
       videos_insert_many sample_videos ;;;
       ret (MessageBody
              ("Seeded " ++ Py.str_nat (Z.of_nat (List.length sample_videos))
                 ++ " videos successfully"), 201))
    (fun _ => ret (ErrorBody "Internal server error", 500)).

End Admin.

(* ===================================================================== *)
(** ** Vocabulary of the properties *)
(* ===================================================================== *)

(** A computation [keeps] a relation [R] on databases when the database it
    leaves is always related to the one it started from.  With [R] the
    equality this says that the computation only reads; with an inclusion
    of collections, that it only adds. *)
Definition keeps (R : DB -> DB -> Prop) {A} (m : M A) : Prop :=
  forall w, R (db w) (db (snd (m w))).



(** The fields that the handlers read from the dict of a body; a name or an
    address that is not a [str] reads as empty here (the handler raises). *)
Definition request_name (env : Env) (data : json) : string :=
  match dict_get "name" (JStr "") data with
  | JStr s => str_strip env s
  | _ => ""
  end.

Definition request_email (env : Env) (data : json) : string :=
  match dict_get "email" (JStr "") data with
  | JStr s => str_lower env (str_strip env s)
  | _ => ""
  end.

Definition request_password (data : json) : jvalue :=
  dict_get "password" (JStr "") data.

(** The dict passes the validation of [login]: it is not empty, its address
    is a [str] that is not empty once normalised, and its password is not
    falsy. *)
Definition login_fields_present (env : Env) (data : json) : bool :=
  match data with
  | [] => false
  | _ => Py.truthy (request_email env data) && jtruthy (request_password data)
  end.

(** The dict passes the validation of [signup]: it is not empty, its name
    and its address are [str] that are not empty once normalised, and its
    password is not falsy and has a length of six or more. *)
Definition signup_fields_valid (env : Env) (data : json) : bool :=
  match data with
  | [] => false
  | _ =>
      Py.truthy (request_name env data) && Py.truthy (request_email env data)
      && jtruthy (request_password data)
      && match jlen (request_password data) with
         | Ok n => 6 <=? n
         | Raise _ => false
         end
  end.

(** The user that a signup stores, from the body, the hash of the password
    and the draws. *)
Definition new_user (env : Env) (data : json) (password_hash : string) (w : World)
  : User :=
  mkUser (uuid4 env (draws w)) (request_name env data) (request_email env data)
         password_hash
         (clock env (ticks w)) (clock env (S (ticks w))) (Some true) None.

(** The answer and the world of a granted login: a pair of tokens for the
    user, and the instant recorded in [last_login]. *)
Definition login_granted (env : Env) (user : User) (w : World)
  : result Response * World :=
  let access :=
    mkClaims (uuid4 env (draws w)) (u_id user) Access (clock env (ticks w))
             (clock env (ticks w) + DateTime.minutes 15) in
  let refresh :=
    mkClaims (uuid4 env (S (draws w))) (u_id user) RefreshT
             (clock env (S (ticks w)))
             (clock env (S (ticks w)) + DateTime.days 7) in
  (Ok (AuthBody "Login successful"
         (mkUserView (u_id user) (u_name user) (u_email user))
         (mkTokens access refresh "Bearer" 900), 200),
   mkWorld (set_users (db w)
              (set_last_login (u_id user) (clock env (S (S (ticks w))))
                 (users (db w))))
           (S (S (S (ticks w)))) (S (S (draws w)))).

(** The name, the address and the password of the dict are JSON strings,
    or absent. *)
Definition is_jstr (v : jvalue) : bool :=
  match v with JStr _ => true | _ => false end.

Definition signup_fields_are_text (data : json) : bool :=
  is_jstr (dict_get "name" (JStr "") data)
  && is_jstr (dict_get "email" (JStr "") data)
  && is_jstr (dict_get "password" (JStr "") data).

(** What [hash_password] returns during the signup that starts at [w]: the
    salt is the second draw. *)
Definition hashed_password (env : Env) (data : json) (w : World) : result string :=
  match jencode (request_password data) with
  | Ok encoded => bcrypt_hashpw env encoded (gensalt env (S (draws w)))
  | Raise e => Raise e
  end.

(** The users registered under an address. *)
Definition users_with_email (email : string) (d : DB) : list User :=
  filter (fun u => String.eqb (u_email u) email) (users d).

(** The world after the watch event of a stream request: the clock has
    been read once more, and the event is stored unless the insertion
    failed. *)
Definition after_watch_log (env : Env) (user_id video_id : string)
           (log_fault : option exn) (w : World) : World :=
  match log_fault with
  | Some _ => mkWorld (db w) (S (ticks w)) (draws w)
  | None =>
      mkWorld (set_watch_history (db w)
                 (watch_history (db w)
                    ++ [mkWatch user_id video_id (clock env (ticks w))
                                "stream_requested"]))
              (S (ticks w)) (draws w)
  end.

(** Two databases have the same revocation registry. *)
Definition same_tokens (d d' : DB) : Prop := tokens d = tokens d'.

(** Two databases have the same users. *)
Definition same_users (d d' : DB) : Prop := users d = users d'.

(** The value that [int(request.args.get(name, default))] has, if any. *)
Definition arg_value (env : Env) (arg : option string) (default : Z) : option Z :=
  match arg with
  | None => Some default
  | Some s => py_int env s
  end.

(** The active videos, in the order of the collection. *)
Definition active_videos (d : DB) : list Video :=
  filter video_active (videos d).

(** What the application never rewrites in a stored user: everything but
    [last_login]. *)
Definition user_core (u : User)
  : string * string * string * string * Z * Z * option bool :=
  (u_id u, u_name u, u_email u, u_password_hash u,
   u_created_at u, u_updated_at u, u_is_active u).

(** No two users share an address, and no two share an identifier. *)
Definition users_unique (d : DB) : Prop :=
  NoDup (map u_email (users d)) /\ NoDup (map u_id (users d)).

(** The three messages of the validation of [signup]. *)
Definition signup_validation_message (msg : string) : Prop :=
  msg = "No data provided"
  \/ msg = "Name, email, and password are required"
  \/ msg = "Password must be at least 6 characters".

(** The playback code of a video and a user at the instant [t]. *)
Definition playback_code (env : Env) (video_id user_id : string) (t : Z) : string :=
  SHA256.hexdigest (playback_data env video_id user_id (DateTime.isoformat t)).

(** The card of the dashboard shows the video, with a playback code of the
    video for the user at some instant. *)
Definition card_shows (env : Env) (user_id : string) (v : Video) (c : VideoCard)
  : Prop :=
  c_id c = v_id v /\ c_title c = v_title v
  /\ c_description c = v_description v
  /\ c_thumbnail_url c = v_thumbnail_url v
  /\ exists t, c_playback_token c = playback_code env (v_id v) user_id t.

(** The four videos that [seed_videos] stores, from the draws and the
    readings of the clock at [w]. *)
Definition seeded_videos (env : Env) (w : World) : list Video :=
  [ mkVideo (uuid4 env (draws w)) "How Startups Fail"
      "Lessons from real founders about common pitfalls and how to avoid them in your startup journey."
      "J8M5dPRcNus" "https://img.youtube.com/vi/J8M5dPRcNus/maxresdefault.jpg"
      (Some true) (Some (clock env (ticks w)));
    mkVideo (uuid4 env (S (draws w))) "The Art of Product Management"
      "Learn the essential skills and frameworks used by top product managers at leading tech companies."
      "huTSPanXdqg" "https://img.youtube.com/vi/huTSPanXdqg/maxresdefault.jpg"
      (Some true) (Some (clock env (S (ticks w))));
    mkVideo (uuid4 env (S (S (draws w)))) "Building Scalable Systems"
      "Architecture patterns and best practices for building systems that can handle millions of users."
      "9n8hP4dQEEw" "https://img.youtube.com/vi/9n8hP4dQEEw/maxresdefault.jpg"
      (Some true) (Some (clock env (S (S (ticks w)))));
    mkVideo (uuid4 env (S (S (S (draws w))))) "Design Thinking Workshop"
      "A hands-on workshop covering the design thinking methodology for solving complex problems."
      "5VCPyrU0qVQ" "https://img.youtube.com/vi/5VCPyrU0qVQ/maxresdefault.jpg"
      (Some true) (Some (clock env (S (S (S (ticks w)))))) ].

(* ===================================================================== *)
(** ** Concrete data for the examples *)
(* ===================================================================== *)

Module Sample.

(** 2024-01-01T10:00:00Z in microseconds. *)
Definition t0 : Z := 1704103200000000.

(** A toy stand-in for bcrypt: the hash is salt, "$" and password, and a
    password of more than 72 bytes is refused. *)
Definition toy_hashpw (password salt : string) : result string :=
  if (72 <? String.length password)%nat then Raise ValueError
  else Ok (salt ++ "$" ++ password).

Definition toy_checkpw (password hashed : string) : result bool :=
  if (72 <? String.length password)%nat then Raise ValueError
  else
    match index 0 "$" hashed with
    | Some n =>
        Ok (String.eqb (substring (S n) (String.length hashed - S n) hashed)
                       password)
    | None => Raise ValueError
    end.

(** The environment of the examples leaves other text as it is and reads no
    integer in it. *)
Definition no_int (s : string) : option Z := None.

Definition uuid_of (n : nat) : string := "uuid-" ++ Py.str_nat (Z.of_nat n).

(** The clock advances by one microsecond from one reading to the next. *)
Definition env_ticking : Env :=
  mkEnv "secret" (fun k => t0 + Z.of_nat k) uuid_of (fun _ => "salt")
        toy_hashpw toy_checkpw (fun s => s) (fun s => s) no_int 101.

(** The clock stands still. *)
Definition env_frozen : Env :=
  mkEnv "secret" (fun _ => t0) uuid_of (fun _ => "salt") toy_hashpw toy_checkpw
        (fun s => s) (fun s => s) no_int 101.

Definition empty_db : DB := mkDB [] [] [] [] true true true.

Definition w_empty : World := mkWorld empty_db 0 0.

Definition video1 : Video :=
  mkVideo "v1" "How Startups Fail" "Lessons from real founders" "J8M5dPRcNus"
          "https://img.youtube.com/vi/J8M5dPRcNus/maxresdefault.jpg"
          (Some true) (Some t0).

Definition jo : User :=
  mkUser "u1" "Jo" "jo@x.com" "salt$secret1" t0 t0 (Some true) None.

Definition jo_inactive : User :=
  mkUser "u1" "Jo" "jo@x.com" "salt$secret1" t0 t0 (Some false) None.

Definition db1 : DB := mkDB [jo] [video1] [] [] true true true.

Definition w1 : World := mkWorld db1 0 0.

Definition token1 : Claims :=
  mkClaims "jti-1" "u1" Access t0 (t0 + DateTime.minutes 15).


(** The playback code of ("v1", "u1") at [t0] under the secret "secret". *)
Definition code1 : string :=
  "865dd6938337c3d8cdc02d1c2b84876b7688b27ebe502c9a1ae112faeecdf4a4".


(** The account of Jo has been deactivated. *)
Definition w_inactive : World :=
  mkWorld (mkDB [jo_inactive] [video1] [] [] true true true) 0 0.

(** Jo has logged out with [token1]. *)
Definition w_revoked : World :=
  mkWorld (mkDB [jo] [video1] [mkRevoked "jti-1" "u1" t0] [] true true true) 1 0.

(** The two bytes of the UTF-8 encoding of U+00E9. *)
Definition e_acute : string :=
  String (Py.chr 195) (String (Py.chr 169) EmptyString).

(** Bodies of login and signup requests. *)
Definition login_unknown : json :=
  [("email", JStr "nobody@x.com"); ("password", JStr "secret1")].

Definition login_wrong : json :=
  [("email", JStr " JO@X.com "); ("password", JStr "secret2")].

Definition signup_first : json :=
  [("name", JStr "Jo"); ("email", JStr "jo@x.com"); ("password", JStr "secret1")].

Definition signup_second : json :=
  [("name", JStr "Joe"); ("email", JStr "  JO@X.com ");
   ("password", JStr "secret2")].

(** A signup whose password is a JSON array of six numbers: it passes the
    validation, and it cannot be encoded. *)
Definition signup_list_password : json :=
  [("name", JStr "Jo"); ("email", JStr "jo@x.com");
   ("password", JList [JInt 1; JInt 2; JInt 3; JInt 4; JInt 5; JInt 6])].

(** Logins whose password is the JSON number 12345. *)
Definition login_unknown_number : json :=
  [("email", JStr "nobody@x.com"); ("password", JInt 12345)].

Definition login_known_number : json :=
  [("email", JStr "jo@x.com"); ("password", JInt 12345)].

(** A signup for the address of Jo with a password of five characters. *)
Definition signup_too_short : json :=
  [("name", JStr "Joe"); ("email", JStr "  JO@X.com "); ("password", JStr "12345")].

(** A signup with a password of five characters, in ten bytes. *)
Definition signup_short_password : json :=
  [("name", JStr "Jo"); ("email", JStr "jo@x.com");
   ("password", JStr (String (Py.chr 195) (String (Py.chr 169)
                     (String (Py.chr 195) (String (Py.chr 169)
                     (String (Py.chr 195) (String (Py.chr 169)
                     (String (Py.chr 195) (String (Py.chr 169)
                     (String (Py.chr 195) (String (Py.chr 169) "")))))))))))].

(** The login of Jo with the right password. *)
Definition login_right : json :=
  [("email", JStr "jo@x.com"); ("password", JStr "secret1")].

(** Jo is registered and the database has none of the indexes. *)
Definition w_no_index : World :=
  mkWorld (mkDB [jo] [video1] [] [] false false false) 0 0.

(** Three signups, two of them for the address of Jo, and a login. *)
Definition signup_events : list event :=
  [ Serve (Signup (Ok (JDict signup_second)));
    Serve (Signup (Ok (JDict [("name", JStr "Ann"); ("email", JStr "ann@x.com");
                              ("password", JStr "secret3")])));
    Serve (Login (Ok (JDict login_right)));
    Serve (Signup (Ok (JDict signup_first))) ].


(** A deactivated video between two active ones. *)
Definition video2 : Video :=
  mkVideo "v2" "Old" "Withdrawn" "xxxxxxxxxxx"
          "https://img.youtube.com/vi/xxxxxxxxxxx/maxresdefault.jpg"
          (Some false) (Some t0).

Definition video3 : Video :=
  mkVideo "v3" "Building Scalable Systems" "Architecture patterns" "9n8hP4dQEEw"
          "https://img.youtube.com/vi/9n8hP4dQEEw/maxresdefault.jpg"
          (Some true) None.

Definition w_three_videos : World :=
  mkWorld (mkDB [jo] [video1; video2; video3] [] [] true true true) 0 0.

(** Another access token of Jo. *)
Definition token2 : Claims :=
  mkClaims "jti-2" "u1" Access t0 (t0 + DateTime.minutes 15).

(** The clock reads two hours after [t0], less two microseconds, and
    advances by one microsecond at each reading. *)
Definition env_two_hours_later : Env :=
  mkEnv "secret" (fun k => t0 + DateTime.hours 2 - 2 + Z.of_nat k)
        uuid_of (fun _ => "salt") toy_hashpw toy_checkpw
        (fun s => s) (fun s => s) no_int 101.

End Sample.

(* ===================================================================== *)
(** ** What a handler does to the database *)
(* ===================================================================== *)

(** The combinators of the monad and the reads of the application keep any
    reflexive and transitive relation. *)
Section Keeps.

Variable R : DB -> DB -> Prop.
Hypothesis R_refl : forall d, R d d.
Hypothesis R_trans : forall a b c, R a b -> R b c -> R a c.

Lemma keeps_ret {A} (a : A) : keeps R (ret a).
Proof. intro w; apply R_refl. Qed.

Lemma keeps_raise {A} (e : exn) : keeps R (@raise A e).
Proof. intro w; apply R_refl. Qed.

Lemma keeps_lift {A} (r : result A) : keeps R (lift r).
Proof. intro w; apply R_refl. Qed.

Lemma keeps_get_db : keeps R get_db.
Proof. intro w; apply R_refl. Qed.

Lemma keeps_datetime_now env : keeps R (datetime_now env).
Proof. intro w; apply R_refl. Qed.

Lemma keeps_uuid_uuid4 env : keeps R (uuid_uuid4 env).
Proof. intro w; apply R_refl. Qed.

Lemma keeps_bcrypt_gensalt env : keeps R (bcrypt_gensalt env).
Proof. intro w; apply R_refl. Qed.

Lemma keeps_bind {A B} (m : M A) (k : A -> M B) :
  keeps R m -> (forall a, keeps R (k a)) -> keeps R (bind m k).
Proof.
  intros Hm Hk w. unfold bind.
  specialize (Hm w). destruct (m w) as [[a | e] w']; cbn in *.
  - eapply R_trans; [exact Hm | apply Hk].
  - exact Hm.
Qed.

Lemma keeps_try_except {A} (m : M A) (h : exn -> M A) :
  keeps R m -> (forall e, keeps R (h e)) -> keeps R (try_except m h).
Proof.
  intros Hm Hh w. unfold try_except.
  specialize (Hm w). destruct (m w) as [[a | e] w']; cbn in *.
  - exact Hm.
  - eapply R_trans; [exact Hm | apply Hh].
Qed.

Lemma keeps_write (c : DB -> bool) (e : exn) (f : DB -> DB) :
  (forall d, R d (f d)) ->
  keeps R (d <- get_db ;; if c d then @raise unit e else put_db (f d)).
Proof.
  intros Hf w. unfold bind, get_db, put_db, raise. cbn.
  destruct (c (db w)); cbn; [apply R_refl | apply Hf].
Qed.

Ltac keeps_leaf :=
  first [ apply keeps_ret | apply keeps_raise | apply keeps_lift
        | apply keeps_get_db | apply keeps_datetime_now
        | apply keeps_uuid_uuid4 | apply keeps_bcrypt_gensalt ].

Ltac keeps_walk :=
  repeat first [ keeps_leaf
               | apply keeps_bind; [ | intro ]
               | apply keeps_try_except; [ | intro ] ].

Lemma keeps_hash_password env p : keeps R (hash_password env p).
Proof. unfold hash_password. keeps_walk. Qed.

Lemma keeps_create_access_token env u : keeps R (create_access_token env u).
Proof. unfold create_access_token. keeps_walk. Qed.

Lemma keeps_create_refresh_token env u : keeps R (create_refresh_token env u).
Proof. unfold create_refresh_token. keeps_walk. Qed.

Lemma keeps_generate_tokens env u : keeps R (generate_tokens env u).
Proof.
  unfold generate_tokens.
  apply keeps_bind; [apply keeps_create_access_token | intro a].
  apply keeps_bind; [apply keeps_create_refresh_token | intro r].
  apply keeps_ret.
Qed.

Lemma keeps_generate_playback_token env v u :
  keeps R (generate_playback_token env v u).
Proof.
  unfold generate_playback_token.
  apply keeps_bind; [apply keeps_datetime_now | intro; apply keeps_ret].
Qed.

Lemma keeps_verify_playback_loop env offs v u t :
  keeps R (verify_playback_loop env offs v u t).
Proof.
  induction offs as [| h rest IH]; cbn [verify_playback_loop].
  - apply keeps_ret.
  - apply keeps_bind; [apply keeps_datetime_now | intro now].
    apply keeps_bind; [apply keeps_lift | intros []]; [apply keeps_ret | exact IH].
Qed.

Lemma keeps_verify_playback_token env v u t :
  keeps R (verify_playback_token env v u t).
Proof. apply keeps_verify_playback_loop. Qed.

Lemma keeps_dashboard_cards env u page : keeps R (dashboard_cards env u page).
Proof.
  induction page as [| video rest IH]; cbn [dashboard_cards].
  - apply keeps_ret.
  - apply keeps_bind; [apply keeps_generate_playback_token | intro tok].
    apply keeps_bind; [apply keeps_datetime_now | intro now].
    apply keeps_bind; [exact IH | intro; apply keeps_ret].
Qed.

Lemma keeps_int_arg env a d : keeps R (int_arg env a d).
Proof.
  unfold int_arg. destruct a as [s |]; [ | apply keeps_ret].
  destruct (py_int env s); [apply keeps_ret | apply keeps_raise].
Qed.

Lemma keeps_floordiv a b : keeps R (floordiv a b).
Proof.
  unfold floordiv. destruct (b =? 0); [apply keeps_raise | apply keeps_ret].
Qed.

(** The writes of the application: the handlers keep any relation that
    holds across a change of the users, an addition to the watch history
    and an addition to the revocation registry. *)
Hypothesis R_users : forall d l, R d (set_users d l).
Hypothesis R_watch : forall d l, R d (set_watch_history d l).
Hypothesis R_revoke : forall d r, R d (set_tokens d (tokens d ++ [r])).

Lemma keeps_users_insert_one u : keeps R (users_insert_one u).
Proof. unfold users_insert_one. apply keeps_write. intro d; apply R_users. Qed.

Lemma keeps_tokens_insert_one r : keeps R (tokens_insert_one r).
Proof. unfold tokens_insert_one. apply keeps_write. intro d; apply R_revoke. Qed.

Lemma keeps_users_update_last_login id t : keeps R (users_update_last_login id t).
Proof. intro w. cbn. apply R_users. Qed.

Lemma keeps_watch_history_insert_one fault e :
  keeps R (watch_history_insert_one fault e).
Proof.
  destruct fault as [x |]; cbn [watch_history_insert_one].
  - apply keeps_raise.
  - intro w. cbn. apply R_watch.
Qed.

Lemma keeps_signup env get_json : keeps R (signup env get_json).
Proof.
  unfold signup. apply keeps_try_except; [ | intro; apply keeps_ret].
  apply keeps_bind; [apply keeps_lift | intro data].
  destruct (negb (jtruthy data)); [apply keeps_ret | ].
  apply keeps_bind; [apply keeps_lift | intro name_field].
  apply keeps_bind; [apply keeps_lift | intro name].
  apply keeps_bind; [apply keeps_lift | intro email_field].
  apply keeps_bind; [apply keeps_lift | intro email].
  apply keeps_bind; [apply keeps_lift | intro password].
  destruct (_ || _); [apply keeps_ret | ].
  apply keeps_bind; [apply keeps_lift | intro len].
  destruct (len <? 6); [apply keeps_ret | ].
  apply keeps_bind; [apply keeps_get_db | intro d].
  destruct (find_user_by_email _ d); [apply keeps_ret | ].
  apply keeps_bind; [apply keeps_uuid_uuid4 | intro id].
  apply keeps_bind; [apply keeps_hash_password | intro h].
  apply keeps_bind; [apply keeps_datetime_now | intro c].
  apply keeps_bind; [apply keeps_datetime_now | intro u].
  apply keeps_bind; [apply keeps_users_insert_one | intros _].
  apply keeps_bind; [apply keeps_generate_tokens | intro; apply keeps_ret].
Qed.

Lemma keeps_login env get_json : keeps R (login env get_json).
Proof.
  unfold login. apply keeps_try_except; [ | intro; apply keeps_ret].
  apply keeps_bind; [apply keeps_lift | intro data].
  destruct (negb (jtruthy data)); [apply keeps_ret | ].
  apply keeps_bind; [apply keeps_lift | intro email_field].
  apply keeps_bind; [apply keeps_lift | intro email].
  apply keeps_bind; [apply keeps_lift | intro password].
  destruct (_ || _); [apply keeps_ret | ].
  apply keeps_bind; [apply keeps_get_db | intro d].
  destruct (find_user_by_email _ d) as [user |]; [ | apply keeps_ret].
  apply keeps_bind; [apply keeps_lift | intro verified].
  destruct (negb verified); [apply keeps_ret | ].
  destruct (u_is_active user) as [[|] |];
    try apply keeps_ret;
    (apply keeps_bind; [apply keeps_generate_tokens | intro tk];
     apply keeps_bind; [apply keeps_datetime_now | intro now];
     apply keeps_bind; [apply keeps_users_update_last_login | intro; apply keeps_ret]).
Qed.

Lemma keeps_refresh env user_id : keeps R (refresh env user_id).
Proof.
  unfold refresh. apply keeps_try_except; [ | intro; apply keeps_ret].
  apply keeps_bind; [apply keeps_get_db | intro d].
  destruct (find_user_by_id _ d); [ | apply keeps_ret].
  apply keeps_bind; [apply keeps_create_access_token | intro; apply keeps_ret].
Qed.

Lemma keeps_get_current_user user_id : keeps R (get_current_user user_id).
Proof.
  unfold get_current_user. apply keeps_try_except; [ | intro; apply keeps_ret].
  apply keeps_bind; [apply keeps_get_db | intro d].
  destruct (find_user_by_id _ d); apply keeps_ret.
Qed.

Lemma keeps_logout env token : keeps R (logout env token).
Proof.
  unfold logout. apply keeps_try_except; [ | intro; apply keeps_ret].
  apply keeps_bind; [apply keeps_datetime_now | intro now].
  apply keeps_bind; [apply keeps_tokens_insert_one | intro; apply keeps_ret].
Qed.

Lemma keeps_get_dashboard env user_id page per_page :
  keeps R (get_dashboard env user_id page per_page).
Proof.
  unfold get_dashboard. apply keeps_try_except; [ | intro; apply keeps_ret].
  apply keeps_bind; [apply keeps_int_arg | intro p].
  apply keeps_bind; [apply keeps_int_arg | intro pp].
  apply keeps_bind; [apply keeps_get_db | intro d].
  apply keeps_bind; [apply keeps_lift | intro sk].
  apply keeps_bind; [apply keeps_lift | intro pg].
  apply keeps_bind; [apply keeps_dashboard_cards | intro cards].
  apply keeps_bind; [apply keeps_floordiv | intro; apply keeps_ret].
Qed.

Lemma keeps_get_video_stream env user_id video_id token fault :
  keeps R (get_video_stream env user_id video_id token fault).
Proof.
  unfold get_video_stream. apply keeps_try_except; [ | intro; apply keeps_ret].
  apply keeps_bind.
  - destruct token as [[| c t] |]; try apply keeps_ret.
    apply keeps_verify_playback_token.
  - intro valid. destruct (negb valid); [apply keeps_ret | ].
    apply keeps_bind; [apply keeps_get_db | intro d].
    destruct (find_video_by_id _ d) as [video |]; [ | apply keeps_ret].
    destruct (v_is_active video) as [[|] |];
      try apply keeps_ret;
      (apply keeps_bind; [ | intro; apply keeps_ret];
       apply keeps_try_except; [ | intro; apply keeps_ret];
       apply keeps_bind; [apply keeps_datetime_now | intro now];
       apply keeps_watch_history_insert_one).
Qed.


End Keeps.

(* ===================================================================== *)
(** ** The revocation registry *)
(* ===================================================================== *)


Lemma check_if_token_revoked_true p d :
  check_if_token_revoked p d = true <->
  exists r, In r (tokens d) /\ r_jti r = jti p.
Proof.
  unfold check_if_token_revoked, find_token_by_jti. split.
  - destruct (find _ (tokens d)) as [r |] eqn:E; [intros _ | discriminate].
    apply find_some in E. destruct E as [Hin Heq].
    exists r. split; [exact Hin | now apply String.eqb_eq].
  - intros [r [Hin Heq]].
    destruct (find _ (tokens d)) as [r' |] eqn:E; [reflexivity | ].
    apply (find_none _ _ E) in Hin. apply String.eqb_neq in Hin. contradiction.
Qed.





(* ===================================================================== *)
(** ** Playback tokens *)
(* ===================================================================== *)

Lemma isascii_app a b :
  Py.isascii (a ++ b) = Py.isascii a && Py.isascii b.
Proof.
  induction a as [| c a IH]; cbn; [reflexivity | ].
  rewrite IH. apply andb_assoc.
Qed.

Lemma hex_char_ascii x :
  (Py.ord (SHA256.hex_char (Z.land x 15)) <? 128) = true.
Proof.
  assert (H : 0 <= Z.land x 15 < 16).
  { change 15 with (Z.ones 4). rewrite Z.land_ones by lia.
    apply Z.mod_pos_bound. reflexivity. }
  remember (Z.land x 15) as d eqn:E. clear E.
  assert (C : d = 0 \/ d = 1 \/ d = 2 \/ d = 3 \/ d = 4 \/ d = 5 \/ d = 6
              \/ d = 7 \/ d = 8 \/ d = 9 \/ d = 10 \/ d = 11 \/ d = 12
              \/ d = 13 \/ d = 14 \/ d = 15) by lia.
  repeat (destruct C as [C | C]; [subst d; reflexivity | ]).
  subst d; reflexivity.
Qed.

Lemma hex_nibbles_ascii n : forall x acc,
  Py.isascii acc = true -> Py.isascii (SHA256.hex_nibbles n x acc) = true.
Proof.
  induction n as [| n IH]; intros x acc Hacc; cbn [SHA256.hex_nibbles].
  - exact Hacc.
  - apply IH. cbn [Py.isascii]. rewrite hex_char_ascii, Hacc. reflexivity.
Qed.

Lemma hex_words_ascii ws : Py.isascii (SHA256.hex_words ws) = true.
Proof.
  induction ws as [| w ws IH]; cbn [SHA256.hex_words]; [reflexivity | ].
  rewrite isascii_app, IH, hex_nibbles_ascii; reflexivity.
Qed.

(** A digest in hexadecimal is ASCII-only. *)
Lemma hexdigest_ascii data : Py.isascii (SHA256.hexdigest data) = true.
Proof. apply hex_words_ascii. Qed.

(** One turn of the loop of [verify_playback_token]. *)
Lemma verify_playback_loop_cons env h rest v u t w :
  verify_playback_loop env (h :: rest) v u t w =
  let w' := mkWorld (db w) (S (ticks w)) (draws w) in
  let expected :=
    SHA256.hexdigest
      (playback_data env v u
         (DateTime.isoformat (clock env (ticks w) - DateTime.hours h))) in
  match compare_digest t expected with
  | Ok true => (Ok true, w')
  | Ok false => verify_playback_loop env rest v u t w'
  | Raise e => (Raise e, w')
  end.
Proof.
  cbn [verify_playback_loop]. unfold bind, datetime_now, lift.
  cbv zeta. destruct (compare_digest t _) as [[|] | e]; reflexivity.
Qed.

Lemma compare_digest_non_ascii a b :
  Py.isascii a = false -> compare_digest a b = Raise TypeError.
Proof. intro H. unfold compare_digest. rewrite H. reflexivity. Qed.

Lemma compare_digest_ascii a data :
  Py.isascii a = true ->
  compare_digest a (SHA256.hexdigest data) = Ok (String.eqb a (SHA256.hexdigest data)).
Proof. intro H. unfold compare_digest. rewrite H, hexdigest_ascii. reflexivity. Qed.

(** A code with a character outside ASCII makes the comparison raise at
    the first turn. *)
Lemma verify_playback_token_non_ascii env v u t w :
  Py.isascii t = false ->
  verify_playback_token env v u t w =
  (Raise TypeError, mkWorld (db w) (S (ticks w)) (draws w)).
Proof.
  intro H. unfold verify_playback_token.
  rewrite verify_playback_loop_cons. cbv zeta.
  rewrite compare_digest_non_ascii by exact H. reflexivity.
Qed.

(** On an ASCII-only code the verification returns a boolean. *)
Lemma verify_playback_loop_ascii_total env offs v u t :
  Py.isascii t = true ->
  forall w, exists b w', verify_playback_loop env offs v u t w = (Ok b, w').
Proof.
  intro H. induction offs as [| h rest IH]; intro w.
  - exists false, w. reflexivity.
  - rewrite verify_playback_loop_cons. cbv zeta.
    rewrite compare_digest_ascii by exact H.
    destruct (String.eqb t _).
    + eexists _, _. reflexivity.
    + apply IH.
Qed.

Lemma verify_playback_token_ascii_total env v u t w :
  Py.isascii t = true ->
  exists b w', verify_playback_token env v u t w = (Ok b, w').
Proof. intro H. apply verify_playback_loop_ascii_total. exact H. Qed.

(** What the code does guarantee: a code verifies when the first reading
    of the clock in [verify_playback_token] is the very instant at which
    the code was generated. *)
Lemma playback_roundtrip_same_instant env v u w :
  clock env (S (ticks w)) = clock env (ticks w) ->
  fst ((code <- generate_playback_token env v u ;;
        verify_playback_token env v u code) w) = Ok true.
Proof.
  intro Hsame. unfold bind at 1. unfold generate_playback_token at 1.
  unfold bind at 1, datetime_now at 1, ret at 1. cbv zeta. cbn [db ticks draws].
  unfold verify_playback_token. rewrite verify_playback_loop_cons.
  cbv zeta. cbn [db ticks draws].
  rewrite compare_digest_ascii by apply hexdigest_ascii.
  unfold DateTime.hours. rewrite Z.mul_0_l, Z.sub_0_r, Hsame.
  rewrite String.eqb_refl. reflexivity.
Qed.

(** With a clock that stands still the round trip succeeds. *)
Example playback_roundtrip_frozen_clock :
  fst ((code <- generate_playback_token Sample.env_frozen "v1" "u1" ;;
        verify_playback_token Sample.env_frozen "v1" "u1" code) Sample.w1)
  = Ok true.
Proof. apply playback_roundtrip_same_instant. reflexivity. Qed.

(** C1. Playback token round-trip.  The code has no hour bucket: the digest
    covers the full timestamp, microseconds included.  With a clock that
    advances by one microsecond at each reading, all within the bucket of
    10:00 on 2024-01-01, the code generated for ("v1", "u1") is refused by
    the verification that follows at once. *)
Theorem playback_roundtrip_fails_within_bucket :
  map (fun k => DateTime.hour_bucket (clock Sample.env_ticking k))
      [0; 1; 2; 3]%nat
    = repeat (DateTime.hour_bucket Sample.t0) 4
  /\ fst ((code <- generate_playback_token Sample.env_ticking "v1" "u1" ;;
           verify_playback_token Sample.env_ticking "v1" "u1" code) Sample.w1)
     = Ok false.
Proof. split; vm_compute; reflexivity. Qed.

(** C2. Determinism within a time bucket.  Two calls one microsecond apart,
    in the same one-hour bucket and with the same secret, return two
    different codes. *)
Theorem playback_code_differs_within_bucket :
  DateTime.hour_bucket (clock Sample.env_ticking 0)
    = DateTime.hour_bucket (clock Sample.env_ticking 1)
  /\ exists c1 c2 w' w'',
       generate_playback_token Sample.env_ticking "v1" "u1" Sample.w1 = (Ok c1, w')
       /\ generate_playback_token Sample.env_ticking "v1" "u1" w' = (Ok c2, w'')
       /\ c1 <> c2.
Proof.
  split; [vm_compute; reflexivity | ].
  eexists _, _, _, _. split; [vm_compute; reflexivity | ].
  split; [vm_compute; reflexivity | ].
  intro H; vm_compute in H; discriminate H.
Qed.

(** C7. Totality of the verification.  On a code with a character outside
    ASCII, [secrets.compare_digest] raises [TypeError]: the verification
    returns no boolean, and the stream endpoint answers 500 where an
    unmatched code gets 403. *)
Theorem verify_playback_token_raises_on_non_ascii :
  forall env video_id user_id w,
    fst (verify_playback_token env video_id user_id Sample.e_acute w) = Raise TypeError
    /\ fst (get_video_stream env user_id video_id (Some Sample.e_acute) None w)
       = Ok (ErrorBody "Internal server error", 500).
Proof.
  intros env video_id user_id w.
  assert (H : Py.isascii Sample.e_acute = false) by reflexivity.
  split.
  - rewrite verify_playback_token_non_ascii by exact H. reflexivity.
  - unfold get_video_stream, try_except, bind. cbn [Sample.e_acute].
    change (String (Py.chr 195) (String (Py.chr 169) "")) with Sample.e_acute.
    rewrite verify_playback_token_non_ascii by exact H. reflexivity.
Qed.

(* ===================================================================== *)
(** ** Running a handler step by step *)
(* ===================================================================== *)

Lemma bind_ok {A B} (m : M A) (k : A -> M B) w a w' :
  m w = (Ok a, w') -> bind m k w = k a w'.
Proof. intro H. unfold bind. rewrite H. reflexivity. Qed.

Lemma bind_raise {A B} (m : M A) (k : A -> M B) w e w' :
  m w = (Raise e, w') -> bind m k w = (Raise e, w').
Proof. intro H. unfold bind. rewrite H. reflexivity. Qed.

Lemma try_except_ok {A} (m : M A) h w a w' :
  m w = (Ok a, w') -> try_except m h w = (Ok a, w').
Proof. intro H. unfold try_except. rewrite H. reflexivity. Qed.

Lemma try_except_raise {A} (m : M A) h w e w' :
  m w = (Raise e, w') -> try_except m h w = h e w'.
Proof. intro H. unfold try_except. rewrite H. reflexivity. Qed.

(** A computation that only reads leaves the database as it was. *)
Lemma reads_only {A} (m : M A) w :
  keeps eq m -> db (snd (m w)) = db w.
Proof. intro H. symmetry. apply H. Qed.

Lemma verify_playback_token_reads_only env v u t w :
  db (snd (verify_playback_token env v u t w)) = db w.
Proof.
  apply reads_only, keeps_verify_playback_token; [reflexivity | ].
  intros a b c; apply eq_trans.
Qed.

(** The loop of the dashboard never raises and only reads. *)
Lemma dashboard_cards_ok env u page : forall w,
  exists cards w',
    dashboard_cards env u page w = (Ok cards, w') /\ db w' = db w.
Proof.
  induction page as [| video rest IH]; intro w; cbn [dashboard_cards].
  - exists [], w. split; reflexivity.
  - unfold bind at 1. unfold generate_playback_token, bind at 1.
    unfold datetime_now at 1. unfold ret at 1. cbv zeta.
    unfold bind at 1. unfold datetime_now at 1.
    match goal with
    | |- context [bind (dashboard_cards env u rest) ?k ?w0] =>
        destruct (IH w0) as [cards [w' [E Hdb]]];
        rewrite (bind_ok _ k w0 cards w' E)
    end.
    eexists _, w'. split; [reflexivity | exact Hdb].
Qed.

(* ===================================================================== *)
(** ** The dashboard *)
(* ===================================================================== *)

Lemma int_arg_cases env arg default w :
  (exists n, int_arg env arg default w = (Ok n, w))
  \/ int_arg env arg default w = (Raise ValueError, w).
Proof.
  unfold int_arg. destruct arg as [s |].
  - destruct (py_int env s) as [n |]; [left; exists n | right]; reflexivity.
  - left; exists default; reflexivity.
Qed.

(** Whatever the page, a [per_page] that reads as zero ends in the
    division by zero of [total_pages], caught by the handler. *)
Lemma get_dashboard_per_page_zero env user_id arg_page s w :
  py_int env s = Some 0 ->
  fst (get_dashboard env user_id arg_page (Some s) w)
  = Ok (ErrorBody "Internal server error", 500).
Proof.
  intro Hs. unfold get_dashboard.
  destruct (int_arg_cases env arg_page 1 w) as [[page Hp] | Hp].
  2: { erewrite try_except_raise by (apply bind_raise; exact Hp). reflexivity. }
  match goal with
  | |- fst (try_except ?m ?h w) = _ =>
      assert (E : exists w', m w = (Raise ZeroDivisionError, w'))
  end.
  { rewrite (bind_ok _ _ _ _ _ Hp).
    unfold int_arg at 1. rewrite Hs.
    unfold bind at 1, ret at 1. unfold bind at 1, get_db at 1.
    unfold bind at 1, lift at 1, cursor_skip.
    rewrite Z.mul_0_r. cbn [Z.ltb Z.compare Z.to_nat skipn INT64_MAX].
    unfold bind at 1, lift at 1, cursor_limit.
    cbn [Z.abs Z.ltb Z.eqb Z.compare INT64_MAX].
    match goal with
    | |- context [bind (dashboard_cards env user_id ?pg) ?k ?w0] =>
        destruct (dashboard_cards_ok env user_id pg w0) as [cards [w' [E _]]];
        rewrite (bind_ok _ k w0 cards w' E)
    end.
    exists w'. reflexivity. }
  destruct E as [w' E].
  rewrite (try_except_raise _ _ _ _ _ E). reflexivity.
Qed.

(** The dashboard answers 200 or 500, never 400. *)
Lemma get_dashboard_status env user_id arg_page arg_per_page w :
  (exists videos pagination,
      fst (get_dashboard env user_id arg_page arg_per_page w)
      = Ok (DashboardBody videos pagination, 200))
  \/ fst (get_dashboard env user_id arg_page arg_per_page w)
     = Ok (ErrorBody "Internal server error", 500).
Proof.
  unfold get_dashboard.
  match goal with
  | |- context [try_except ?m ?h w] =>
      destruct (m w) as [[[b st] | e] w'] eqn:E
  end.
  - left. rewrite (try_except_ok _ _ _ _ _ E). cbn [fst].
    revert E.
    destruct (int_arg_cases env arg_page 1 w) as [[page Hp] | Hp];
      [rewrite (bind_ok _ _ _ _ _ Hp)
      | rewrite (bind_raise _ _ _ _ _ Hp); discriminate].
    destruct (int_arg_cases env arg_per_page 2 w) as [[per_page Hpp] | Hpp];
      [rewrite (bind_ok _ _ _ _ _ Hpp)
      | rewrite (bind_raise _ _ _ _ _ Hpp); discriminate].
    unfold bind at 1, get_db at 1. unfold bind at 1, lift at 1.
    destruct (cursor_skip _ _) as [skipped | x]; [ | discriminate].
    unfold bind at 1, lift at 1.
    destruct (cursor_limit _ _ _) as [shown | x]; [ | discriminate].
    match goal with
    | |- context [bind (dashboard_cards env user_id ?pg) ?k ?w0] =>
        destruct (dashboard_cards_ok env user_id pg w0) as [cards [w'' [Ec _]]];
        rewrite (bind_ok _ k w0 cards w'' Ec)
    end.
    unfold bind, floordiv. destruct (_ =? 0); cbn; [discriminate | ].
    intro H; inversion H; subst. eexists _, _. reflexivity.
  - right. rewrite (try_except_raise _ _ _ _ _ E). reflexivity.
Qed.

(** C10. Dashboard pagination is unguarded: with [per_page=0] the request
    ends in the generic 500, whatever the page; and no value of [page] or
    [per_page] is ever answered with 400. *)
Theorem dashboard_per_page_zero_is_500 :
  forall env user_id arg_page w,
    fst (get_dashboard env user_id arg_page (Some "0") w)
    = Ok (ErrorBody "Internal server error", 500)
    /\ forall arg_per_page b,
         fst (get_dashboard env user_id arg_page arg_per_page w) <> Ok (b, 400).
Proof.
  intros env user_id arg_page w. split.
  - apply get_dashboard_per_page_zero. reflexivity.
  - intros arg_per_page b.
    destruct (get_dashboard_status env user_id arg_page arg_per_page w)
      as [[vs [pg H]] | H]; rewrite H; intro C; inversion C.
Qed.

(* ===================================================================== *)
(** ** Refresh and logout *)
(* ===================================================================== *)

(** C4, as stated, fails: the account "u1" exists and is deactivated, and
    the refresh still answers 200 with a new access token. *)
Lemma refresh_serves_deactivated_account :
  ~ (forall env w user_id user,
        find_user_by_id user_id (db w) = Some user ->
        u_is_active user = Some false ->
        forall b, fst (refresh env user_id w) <> Ok (b, 200)).
Proof.
  intro H.
  eapply (H Sample.env_ticking Sample.w_inactive "u1" Sample.jo_inactive);
    reflexivity.
Qed.

(** C4, amended. Refresh re-validates that the subject exists, and nothing
    else: when the subject is gone the answer is 404 "User not found" and
    the world is untouched; when it exists, active or not, the answer is 200
    with an access token for the subject whose [jti] is the next draw of
    [uuid4], and the database is left as it was, so that the blacklist check
    answers for every token (the refresh token included) as before. *)
Theorem refresh_checks_existence_only :
  forall env w user_id,
    match find_user_by_id user_id (db w) with
    | None =>
        refresh env user_id w = (Ok (ErrorBody "User not found", 404), w)
    | Some _ =>
        exists access,
          fst (refresh env user_id w) = Ok (RefreshBody access "Bearer" 900, 200)
          /\ jti access = uuid4 env (draws w)
          /\ sub access = user_id
          /\ typ access = Access
          /\ exp access = iat access + DateTime.minutes 15
          /\ db (snd (refresh env user_id w)) = db w
          /\ forall payload,
               check_if_token_revoked payload (db (snd (refresh env user_id w)))
               = check_if_token_revoked payload (db w)
    end.
Proof.
  intros env w user_id.
  unfold refresh, try_except, bind, get_db. cbn [fst snd].
  destruct (find_user_by_id user_id (db w)) as [user |]; [ | reflexivity].
  cbn. eexists. repeat split.
Qed.

Lemma check_if_token_revoked_existsb token d :
  existsb (fun x => String.eqb (r_jti x) (jti token)) (tokens d)
  = check_if_token_revoked token d.
Proof.
  destruct (check_if_token_revoked token d) eqn:E.
  - apply check_if_token_revoked_true in E. destruct E as [r [Hin Hj]].
    apply existsb_exists. exists r. split; [exact Hin | ].
    apply String.eqb_eq. exact Hj.
  - destruct (existsb _ _) eqn:X; [ | reflexivity].
    apply existsb_exists in X. destruct X as [r [Hin Hj]].
    assert (T : check_if_token_revoked token d = true).
    { apply check_if_token_revoked_true. exists r. split; [exact Hin | ].
      apply String.eqb_eq. exact Hj. }
    congruence.
Qed.

(** C5, as stated, fails: "jti-1" is in the registry, and revoking it again
    is answered with 500, not with a success. *)
Lemma logout_again_is_not_a_success :
  ~ (forall env w token,
        check_if_token_revoked token (db w) = true ->
        exists b,
          fst (logout env token w) = Ok (b, 200)
          /\ db (snd (logout env token w)) = db w).
Proof.
  intro H.
  destruct (H Sample.env_ticking Sample.w_revoked Sample.token1 eq_refl)
    as [b [Hb _]].
  vm_compute in Hb. discriminate Hb.
Qed.

(** C5, amended. With the unique index on [jti], revoking a [jti] that is
    already in the registry changes nothing in the database, and the [jti]
    stays revoked; but the insertion raises the duplicate-key error and the
    answer is 500 "Internal server error", not a success. *)
Theorem logout_again_is_a_noop_500 :
  forall env w token,
    idx_tokens_jti (db w) = true ->
    check_if_token_revoked token (db w) = true ->
    fst (logout env token w) = Ok (ErrorBody "Internal server error", 500)
    /\ db (snd (logout env token w)) = db w
    /\ check_if_token_revoked token (db (snd (logout env token w))) = true.
Proof.
  intros env w token Hidx Hrev.
  assert (E : logout env token w
              = (Ok (ErrorBody "Internal server error", 500),
                 mkWorld (db w) (S (ticks w)) (draws w))).
  { unfold logout, tokens_insert_one, try_except, bind, datetime_now, get_db.
    cbn [db ticks draws r_jti fst snd].
    rewrite Hidx, check_if_token_revoked_existsb, Hrev. reflexivity. }
  rewrite E. cbn [fst snd db]. repeat split. exact Hrev.
Qed.

Lemma logout_again_is_a_noop_500_witness :
  idx_tokens_jti (db Sample.w_revoked) = true
  /\ check_if_token_revoked Sample.token1 (db Sample.w_revoked) = true
  /\ fst (logout Sample.env_ticking Sample.token1 Sample.w_revoked)
     = Ok (ErrorBody "Internal server error", 500)
  /\ db (snd (logout Sample.env_ticking Sample.token1 Sample.w_revoked))
     = db Sample.w_revoked.
Proof.
  split; [reflexivity | ]. split; [reflexivity | ].
  destruct (logout_again_is_a_noop_500 Sample.env_ticking Sample.w_revoked
              Sample.token1 eq_refl eq_refl) as [H1 [H2 _]].
  split; [exact H1 | exact H2].
Defined.

(* ===================================================================== *)
(** ** Signup and login *)
(* ===================================================================== *)

Lemma bind_lift_ok {A B} (a : A) (k : A -> M B) w :
  bind (lift (Ok a)) k w = k a w.
Proof. reflexivity. Qed.

Lemma bind_lift_raise {A B} (e : exn) (k : A -> M B) w :
  bind (lift (Raise e)) k w = (Raise e, w).
Proof. reflexivity. Qed.

Lemma bind_get_db {B} (k : DB -> M B) w : bind get_db k w = k (db w) w.
Proof. reflexivity. Qed.

Lemma request_email_text env data :
  Py.truthy (request_email env data) = true ->
  exists e,
    dict_get "email" (JStr "") data = JStr e
    /\ request_email env data = str_lower env (str_strip env e).
Proof.
  unfold request_email.
  destruct (dict_get "email" (JStr "") data); try discriminate.
  intros _. eexists. split; reflexivity.
Qed.

Lemma request_name_text env data :
  Py.truthy (request_name env data) = true ->
  exists n,
    dict_get "name" (JStr "") data = JStr n
    /\ request_name env data = str_strip env n.
Proof.
  unfold request_name.
  destruct (dict_get "name" (JStr "") data); try discriminate.
  intros _. eexists. split; reflexivity.
Qed.

Lemma login_fields_present_inv env data :
  login_fields_present env data = true ->
  jtruthy (JDict data) = true
  /\ Py.truthy (request_email env data) = true
  /\ jtruthy (request_password data) = true.
Proof.
  unfold login_fields_present. destruct data as [| kv rest]; [discriminate | ].
  intro H. apply andb_true_iff in H. destruct H as [He Hp].
  repeat split; assumption.
Qed.

(** The run of [login] on a dict that passes its validation. *)
Lemma login_present env data w :
  login_fields_present env data = true ->
  login env (Ok (JDict data)) w
  = match find_user_by_email (request_email env data) (db w) with
    | None => (Ok (ErrorBody "Invalid credentials", 401), w)
    | Some user =>
        match verify_password env (request_password data) (u_password_hash user) with
        | Raise _ => (Ok (ErrorBody "Internal server error", 500), w)
        | Ok false => (Ok (ErrorBody "Invalid credentials", 401), w)
        | Ok true =>
            match u_is_active user with
            | Some false => (Ok (ErrorBody "Account is deactivated", 403), w)
            | _ => login_granted env user w
            end
        end
    end.
Proof.
  intro H. apply login_fields_present_inv in H. destruct H as [Hd [He Hp]].
  destruct (request_email_text env data He) as [e [Hfield Hemail]].
  rewrite Hemail in *. unfold request_password in *.
  unfold login, try_except.
  rewrite bind_lift_ok, Hd. cbn [negb jget].
  rewrite bind_lift_ok, Hfield. cbn [jstrip].
  rewrite bind_lift_ok, bind_lift_ok, He, Hp. cbn [negb orb].
  rewrite bind_get_db.
  destruct (find_user_by_email _ (db w)) as [user |]; [ | reflexivity].
  destruct (verify_password env _ (u_password_hash user)) as [[|] | x];
    [ | reflexivity | reflexivity].
  rewrite bind_lift_ok. cbn [negb].
  destruct (u_is_active user) as [[|] |]; reflexivity.
Qed.

(** Any other body is answered 400 or 500 and leaves the world alone. *)
Lemma login_not_present env get_json w :
  (forall data, get_json = Ok (JDict data) -> login_fields_present env data = false) ->
  exists msg code,
    login env get_json w = (Ok (ErrorBody msg, code), w)
    /\ (code = 400 \/ code = 500).
Proof.
  intro H. unfold login, try_except.
  destruct get_json as [v | x];
    [ | exists "Internal server error", 500; split; [reflexivity | now right]].
  rewrite bind_lift_ok.
  destruct (jtruthy v) eqn:T; cbn [negb];
    [ | exists "No data provided", 400; split; [reflexivity | now left]].
  destruct v as [| b | n | nz | t | items | data];
    try (exists "Internal server error", 500; split; [reflexivity | now right]).
  specialize (H data eq_refl). unfold login_fields_present in H.
  destruct data as [| kv rest]; [discriminate T | ].
  unfold request_email, request_password in H. cbn [jget].
  rewrite bind_lift_ok.
  destruct (dict_get "email" (JStr "") (kv :: rest)) as [| b | n | nz | e | l | l];
    try (exists "Internal server error", 500; split; [reflexivity | now right]).
  cbn [jstrip]. rewrite bind_lift_ok, bind_lift_ok.
  apply andb_false_iff in H.
  exists "Email and password are required", 400. split; [ | now left].
  destruct H as [H | H]; rewrite H; cbn [negb orb]; [reflexivity | ].
  rewrite orb_true_r. reflexivity.
Qed.

(** What holds when [verify_password] returns [False]: the address is
    unknown or the password does not match, and the answer is the same. *)
Lemma login_same_answer_when_verify_returns_false env w1 w2 data1 data2 user :
  login_fields_present env data1 = true ->
  login_fields_present env data2 = true ->
  find_user_by_email (request_email env data1) (db w1) = None ->
  find_user_by_email (request_email env data2) (db w2) = Some user ->
  verify_password env (request_password data2) (u_password_hash user) = Ok false ->
  login env (Ok (JDict data1)) w1 = (Ok (ErrorBody "Invalid credentials", 401), w1)
  /\ login env (Ok (JDict data2)) w2 = (Ok (ErrorBody "Invalid credentials", 401), w2).
Proof.
  intros Hf1 Hf2 Hnone Hsome Hpw.
  rewrite (login_present env data1 w1 Hf1), Hnone.
  rewrite (login_present env data2 w2 Hf2), Hsome, Hpw.
  split; reflexivity.
Qed.

(** C6. Login failure is not indistinguishable.  [verify_password] runs
    only for a registered address, and what it raises is answered 500: with
    a JSON number as the password (a wrong password for every account), the
    request for an unknown address gets 401 "Invalid credentials" and the
    request for a registered address gets 500 "Internal server error",
    whatever the environment and the database. *)
Theorem login_failure_leaks_through_exception :
  forall env w data1 data2 user n,
    login_fields_present env data1 = true ->
    login_fields_present env data2 = true ->
    request_password data1 = JInt n ->
    request_password data2 = JInt n ->
    find_user_by_email (request_email env data1) (db w) = None ->
    find_user_by_email (request_email env data2) (db w) = Some user ->
    fst (login env (Ok (JDict data1)) w) = Ok (ErrorBody "Invalid credentials", 401)
    /\ fst (login env (Ok (JDict data2)) w)
       = Ok (ErrorBody "Internal server error", 500).
Proof.
  intros env w data1 data2 user n Hf1 Hf2 Hp1 Hp2 Hnone Hsome.
  rewrite (login_present env data1 w Hf1), Hnone.
  rewrite (login_present env data2 w Hf2), Hsome, Hp2.
  split; reflexivity.
Qed.

Lemma login_failure_leaks_through_exception_witness :
  find_user_by_email (request_email Sample.env_ticking Sample.login_unknown_number)
    (db Sample.w1) = None
  /\ find_user_by_email (request_email Sample.env_ticking Sample.login_known_number)
       (db Sample.w1) = Some Sample.jo
  /\ fst (login Sample.env_ticking (Ok (JDict Sample.login_unknown_number)) Sample.w1)
     = Ok (ErrorBody "Invalid credentials", 401)
  /\ fst (login Sample.env_ticking (Ok (JDict Sample.login_known_number)) Sample.w1)
     = Ok (ErrorBody "Internal server error", 500).
Proof.
  split; [reflexivity | ]. split; [reflexivity | ].
  exact (login_failure_leaks_through_exception Sample.env_ticking Sample.w1
           Sample.login_unknown_number Sample.login_known_number Sample.jo 12345
           eq_refl eq_refl eq_refl eq_refl eq_refl eq_refl).
Defined.

Lemma signup_fields_valid_inv env data :
  signup_fields_valid env data = true ->
  jtruthy (JDict data) = true
  /\ Py.truthy (request_name env data) = true
  /\ Py.truthy (request_email env data) = true
  /\ jtruthy (request_password data) = true
  /\ exists n, jlen (request_password data) = Ok n /\ (n <? 6) = false.
Proof.
  unfold signup_fields_valid. destruct data as [| kv rest]; [discriminate | ].
  intro H. repeat (apply andb_true_iff in H; destruct H as [H ?]).
  destruct (jlen (request_password (kv :: rest))) as [n |]; [ | discriminate].
  repeat split; try assumption.
  exists n. split; [reflexivity | ]. apply Z.ltb_ge. now apply Z.leb_le.
Qed.

(** The run of [signup] on a dict that passes its validation: what is left
    is the lookup of the address and the insertion. *)
Lemma signup_valid_run env data w :
  signup_fields_valid env data = true ->
  signup env (Ok (JDict data)) w
  = try_except
      (d <- get_db ;;
       match find_user_by_email (request_email env data) d with
       | Some _ => ret (ErrorBody "Email already registered", 409)
       | None =>
           id <- uuid_uuid4 env ;;
           password_hash <- hash_password env (request_password data) ;;
           created_at <- datetime_now env ;;
           updated_at <- datetime_now env ;;
           let user := mkUser id (request_name env data) (request_email env data)
                              password_hash created_at updated_at
                              (Some true) None in
           users_insert_one user ;;;
           tokens <- generate_tokens env (u_id user) ;;
           ret (AuthBody "User registered successfully"
                  (mkUserView (u_id user) (u_name user) (u_email user))
                  tokens, 201)
       end)
      (fun _ => ret (ErrorBody "Internal server error", 500)) w.
Proof.
  intro H. apply signup_fields_valid_inv in H.
  destruct H as [Hd [Hn [He [Hp [n [Hl Hn6]]]]]].
  destruct (request_name_text env data Hn) as [nm [Hnfield Hname]].
  destruct (request_email_text env data He) as [e [Hefield Hemail]].
  rewrite Hname, Hemail in *. unfold request_password in *.
  unfold signup, try_except.
  rewrite bind_lift_ok, Hd. cbn [negb jget].
  rewrite bind_lift_ok, Hnfield. cbn [jstrip].
  rewrite bind_lift_ok, bind_lift_ok, Hefield. cbn [jstrip].
  rewrite bind_lift_ok, bind_lift_ok, Hn, He, Hp. cbn [negb orb].
  rewrite Hl, bind_lift_ok, Hn6. reflexivity.
Qed.

Lemma hash_password_run env password w :
  hash_password env password w
  = (match jencode password with
     | Ok encoded => bcrypt_hashpw env encoded (gensalt env (draws w))
     | Raise e => Raise e
     end,
     mkWorld (db w) (ticks w) (S (draws w))).
Proof.
  unfold hash_password, bind, bcrypt_gensalt, lift.
  destruct (jencode password) as [encoded | e]; [ | reflexivity].
  cbn [db ticks draws]. destruct (bcrypt_hashpw env encoded _); reflexivity.
Qed.

Lemma find_none_existsb_email email d :
  find_user_by_email email d = None ->
  existsb (fun x => String.eqb (u_email x) email) (users d) = false.
Proof.
  intro Hfind.
  match goal with |- ?e = false => destruct e eqn:X end; [ | reflexivity].
  apply existsb_exists in X. destruct X as [x [Hin Hx]].
  unfold find_user_by_email in Hfind.
  rewrite (find_none _ _ Hfind x Hin) in Hx. discriminate.
Qed.

(** A valid signup for a registered address is a conflict. *)
Lemma signup_registered_address env data w user :
  signup_fields_valid env data = true ->
  find_user_by_email (request_email env data) (db w) = Some user ->
  signup env (Ok (JDict data)) w
  = (Ok (ErrorBody "Email already registered", 409), w).
Proof.
  intros Hv Hfind. rewrite (signup_valid_run env data w Hv).
  unfold try_except. rewrite bind_get_db, Hfind. reflexivity.
Qed.

(** A valid signup for a new address, whose password is hashed and whose
    identifier is fresh, stores the user and answers 201. *)
Lemma signup_new_address env data w h :
  signup_fields_valid env data = true ->
  find_user_by_email (request_email env data) (db w) = None ->
  hashed_password env data w = Ok h ->
  existsb (fun x => String.eqb (u_id x) (uuid4 env (draws w))) (users (db w)) = false ->
  exists tokens w',
    signup env (Ok (JDict data)) w
    = (Ok (AuthBody "User registered successfully"
             (mkUserView (uuid4 env (draws w)) (request_name env data)
                         (request_email env data)) tokens, 201), w')
    /\ sub (access_token tokens) = uuid4 env (draws w)
    /\ db w' = set_users (db w) (users (db w) ++ [new_user env data h w]).
Proof.
  intros Hv Hfind Hhash Hfresh. rewrite (signup_valid_run env data w Hv).
  unfold try_except. rewrite bind_get_db, Hfind.
  unfold bind at 1, uuid_uuid4 at 1. unfold bind at 1.
  rewrite hash_password_run. cbn [draws].
  unfold hashed_password in Hhash. rewrite Hhash.
  unfold users_insert_one, generate_tokens, create_access_token,
    create_refresh_token, bind, get_db, uuid_uuid4, datetime_now, put_db, ret.
  cbn [db ticks draws fst snd u_id u_email u_name].
  rewrite Hfresh, (find_none_existsb_email _ _ Hfind), andb_false_r.
  cbn [orb]. eexists _, _. split; [reflexivity | ]. split; reflexivity.
Qed.

(** A valid signup whose password cannot be hashed, or whose identifier
    collides with a stored one, is answered 500 and stores nothing. *)
Lemma signup_insertion_fails env data w :
  signup_fields_valid env data = true ->
  find_user_by_email (request_email env data) (db w) = None ->
  (exists e, hashed_password env data w = Raise e)
  \/ existsb (fun x => String.eqb (u_id x) (uuid4 env (draws w))) (users (db w)) = true ->
  fst (signup env (Ok (JDict data)) w) = Ok (ErrorBody "Internal server error", 500)
  /\ db (snd (signup env (Ok (JDict data)) w)) = db w.
Proof.
  intros Hv Hfind Hfail.
  remember (signup env (Ok (JDict data)) w) as r eqn:R.
  rewrite (signup_valid_run env data w Hv) in R.
  unfold try_except in R. rewrite bind_get_db, Hfind in R.
  unfold bind at 1, uuid_uuid4 at 1 in R. unfold bind at 1 in R.
  rewrite hash_password_run in R. cbn [draws] in R.
  fold (hashed_password env data w) in R.
  destruct (hashed_password env data w) as [h | e] eqn:Hh.
  - destruct Hfail as [[e He] | Hdup]; [discriminate | ].
    unfold users_insert_one, bind, get_db, datetime_now, put_db, raise, ret in R.
    cbn [db ticks draws fst snd u_id u_email u_name] in R.
    rewrite Hdup in R. cbn [orb] in R. subst r. split; reflexivity.
  - subst r. split; reflexivity.
Qed.

(** Any body that is not a dict passing the validation is answered 400, with
    a message of the validation, or 500, and leaves the world alone. *)
Lemma signup_not_valid env get_json w :
  (forall data, get_json = Ok (JDict data) -> signup_fields_valid env data = false) ->
  exists msg code,
    signup env get_json w = (Ok (ErrorBody msg, code), w)
    /\ (code = 400 /\ signup_validation_message msg \/ code = 500).
Proof.
  intro H. unfold signup, try_except, signup_validation_message.
  destruct get_json as [v | x];
    [ | exists "Internal server error", 500; split; [reflexivity | now right]].
  rewrite bind_lift_ok.
  destruct (jtruthy v) eqn:T; cbn [negb];
    [ | exists "No data provided", 400; split; [reflexivity | left; tauto]].
  destruct v as [| b | n | nz | t | items | data];
    try (exists "Internal server error", 500; split; [reflexivity | now right]).
  specialize (H data eq_refl). unfold signup_fields_valid in H.
  destruct data as [| kv rest]; [discriminate T | ].
  unfold request_name, request_email, request_password in H. cbn [jget].
  rewrite bind_lift_ok.
  destruct (dict_get "name" (JStr "") (kv :: rest)) as [| b | n | nz | nm | l | l];
    try (exists "Internal server error", 500; split; [reflexivity | now right]).
  cbn [jstrip]. rewrite bind_lift_ok, bind_lift_ok.
  destruct (dict_get "email" (JStr "") (kv :: rest)) as [| b | n | nz | e | l | l];
    try (exists "Internal server error", 500; split; [reflexivity | now right]).
  cbn [jstrip]. rewrite bind_lift_ok, bind_lift_ok.
  destruct (Py.truthy (str_strip env nm)); cbn [negb orb andb] in *;
    [ | exists "Name, email, and password are required", 400;
        split; [reflexivity | left; tauto]].
  destruct (Py.truthy (str_lower env (str_strip env e))); cbn [negb orb andb] in *;
    [ | exists "Name, email, and password are required", 400;
        split; [reflexivity | left; tauto]].
  destruct (jtruthy (dict_get "password" (JStr "") (kv :: rest)));
    cbn [negb orb andb] in *;
    [ | exists "Name, email, and password are required", 400;
        split; [reflexivity | left; tauto]].
  destruct (jlen (dict_get "password" (JStr "") (kv :: rest))) as [n | x];
    [ | exists "Internal server error", 500; split; [reflexivity | now right]].
  rewrite bind_lift_ok.
  apply Z.leb_gt in H. apply Z.ltb_lt in H. rewrite H.
  exists "Password must be at least 6 characters", 400.
  split; [reflexivity | left; tauto].
Qed.

(** The ways a signup ends. *)
Lemma signup_cases env get_json w :
  (exists msg code,
      signup env get_json w = (Ok (ErrorBody msg, code), w)
      /\ (code = 400 /\ signup_validation_message msg \/ code = 409 \/ code = 500))
  \/ (exists msg,
         fst (signup env get_json w) = Ok (ErrorBody msg, 500)
         /\ db (snd (signup env get_json w)) = db w)
  \/ (exists data h tokens w',
         get_json = Ok (JDict data)
         /\ signup_fields_valid env data = true
         /\ find_user_by_email (request_email env data) (db w) = None
         /\ hashed_password env data w = Ok h
         /\ existsb (fun x => String.eqb (u_id x) (uuid4 env (draws w)))
                    (users (db w)) = false
         /\ signup env get_json w
            = (Ok (AuthBody "User registered successfully"
                     (mkUserView (uuid4 env (draws w)) (request_name env data)
                                 (request_email env data)) tokens, 201), w')
         /\ sub (access_token tokens) = uuid4 env (draws w)
         /\ db w' = set_users (db w) (users (db w) ++ [new_user env data h w])).
Proof.
  assert (D : (exists data, get_json = Ok (JDict data)
                            /\ signup_fields_valid env data = true)
              \/ (forall data, get_json = Ok (JDict data) ->
                               signup_fields_valid env data = false)).
  { destruct get_json as [[| b | n | nz | t | items | data] | x];
      try (right; intros data' E; discriminate E).
    destruct (signup_fields_valid env data) eqn:V.
    - left. exists data. split; [reflexivity | exact V].
    - right. intros data' E. inversion E; subst. exact V. }
  destruct D as [[data [E V]] | N].
  - subst get_json.
    destruct (find_user_by_email (request_email env data) (db w)) as [u |] eqn:F.
    + left. exists "Email already registered", 409.
      split; [apply (signup_registered_address env data w u V F) | ].
      right; now left.
    + destruct (hashed_password env data w) as [h | e] eqn:Hh.
      * destruct (existsb (fun x => String.eqb (u_id x) (uuid4 env (draws w)))
                          (users (db w))) eqn:X.
        -- right; left. exists "Internal server error".
           apply (signup_insertion_fails env data w V F). now right.
        -- right; right.
           destruct (signup_new_address env data w h V F Hh X)
             as [tk [w' [Es [Hsub Hdb]]]].
           exists data, h, tk, w'. repeat split; assumption.
      * right; left. exists "Internal server error".
        apply (signup_insertion_fails env data w V F). left. now exists e.
  - left. destruct (signup_not_valid env get_json w N) as [msg [code [E C]]].
    exists msg, code. split; [exact E | ]. destruct C as [C | C]; [now left | ].
    right; now right.
Qed.

(** A signup answered 201 is a valid signup for a new address, and it has
    stored its user. *)
Lemma signup_201_inv env get_json w b :
  fst (signup env get_json w) = Ok (b, 201) ->
  exists data h tokens,
    get_json = Ok (JDict data)
    /\ signup_fields_valid env data = true
    /\ find_user_by_email (request_email env data) (db w) = None
    /\ hashed_password env data w = Ok h
    /\ existsb (fun x => String.eqb (u_id x) (uuid4 env (draws w)))
               (users (db w)) = false
    /\ b = AuthBody "User registered successfully"
             (mkUserView (uuid4 env (draws w)) (request_name env data)
                         (request_email env data)) tokens
    /\ sub (access_token tokens) = uuid4 env (draws w)
    /\ db (snd (signup env get_json w))
       = set_users (db w) (users (db w) ++ [new_user env data h w]).
Proof.
  intro H.
  destruct (signup_cases env get_json w)
    as [[msg [code [E C]]] | [[msg [E _]] | [data [h [tk [w' R]]]]]].
  - rewrite E in H. cbn [fst] in H. inversion H; subst.
    destruct C as [[C _] | [C | C]]; discriminate C.
  - rewrite E in H. discriminate H.
  - destruct R as [Eg [V [F [Hh [X [Es [Hsub Hdb]]]]]]].
    rewrite Es in H |- *. cbn [fst snd] in *. inversion H; subst b.
    exists data, h, tk. repeat split; assumption.
Qed.

Lemma find_app_none_hit {A} (f : A -> bool) l x :
  find f l = None -> f x = true -> find f (l ++ [x]) = Some x.
Proof.
  induction l as [| a l IH]; cbn; intros Hn Hx.
  - rewrite Hx. reflexivity.
  - destruct (f a); [discriminate | apply IH; assumption].
Qed.

Lemma filter_find_none {A} (f : A -> bool) l :
  find f l = None -> filter f l = [].
Proof.
  induction l as [| a l IH]; cbn; [reflexivity | ].
  destruct (f a); [discriminate | exact IH].
Qed.

(** C8, as stated, fails: two signups for "jo@x.com" whose password is a
    JSON array of six numbers both pass the validation, and the address is
    new; both are answered 500, neither 409, and no user is stored.  (So do
    two signups with a password that bcrypt refuses to hash.) *)
Lemma duplicate_signup_without_conflict :
  ~ (forall env w data1 data2,
        signup_fields_valid env data1 = true ->
        signup_fields_valid env data2 = true ->
        request_email env data1 = request_email env data2 ->
        find_user_by_email (request_email env data1) (db w) = None ->
        let r1 := signup env (Ok (JDict data1)) w in
        let r2 := signup env (Ok (JDict data2)) (snd r1) in
        (exists b, fst r1 = Ok (b, 409) \/ fst r2 = Ok (b, 409))
        /\ List.length (users_with_email (request_email env data1) (db (snd r2)))
           = 1%nat).
Proof.
  intro H.
  destruct (H Sample.env_ticking Sample.w_empty Sample.signup_list_password
              Sample.signup_list_password eq_refl eq_refl eq_refl eq_refl)
    as [_ Hn].
  vm_compute in Hn. discriminate Hn.
Qed.

(** C8, amended. Duplicate signup: when a signup has been answered 201, a
    second request whose address is the same once trimmed and lowercased
    stores nothing, so that exactly one user, the one of the first request,
    has the address in the end; and when the second request passes the
    validation it is answered 409 "Email already registered". *)
Theorem duplicate_signup_conflict :
  forall env w data1 data2 b1,
    fst (signup env (Ok (JDict data1)) w) = Ok (b1, 201) ->
    request_email env data2 = request_email env data1 ->
    let r1 := signup env (Ok (JDict data1)) w in
    let r2 := signup env (Ok (JDict data2)) (snd r1) in
    (signup_fields_valid env data2 = true ->
     fst r2 = Ok (ErrorBody "Email already registered", 409))
    /\ db (snd r2) = db (snd r1)
    /\ exists user,
         users_with_email (request_email env data1) (db (snd r2)) = [user]
         /\ u_name user = request_name env data1
         /\ users (db (snd r2)) = (users (db w) ++ [user])%list.
Proof.
  intros env w data1 data2 b1 H201 Heq r1 r2.
  destruct (signup_201_inv env _ w b1 H201)
    as [data [h [tk [Eg [V [F [Hh [X [Eb [_ Hdb]]]]]]]]]].
  inversion Eg; subst data. clear Eg.
  assert (Hhit : find_user_by_email (request_email env data2) (db (snd r1))
                 = Some (new_user env data1 h w)).
  { subst r1. unfold find_user_by_email. rewrite Hdb, Heq. cbn [users set_users].
    apply find_app_none_hit; [exact F | ].
    cbn [new_user u_email]. apply String.eqb_refl. }
  assert (E2 : (signup_fields_valid env data2 = true ->
                fst r2 = Ok (ErrorBody "Email already registered", 409))
               /\ db (snd r2) = db (snd r1)).
  { subst r2. destruct (signup_fields_valid env data2) eqn:V2.
    - rewrite (signup_registered_address env data2 (snd r1) _ V2 Hhit).
      split; reflexivity.
    - split; [discriminate | ].
      destruct (signup_not_valid env (Ok (JDict data2)) (snd r1))
        as [msg [code [E _]]].
      + intros d Ed. inversion Ed; subst d. exact V2.
      + rewrite E. reflexivity. }
  destruct E2 as [E409 Edb]. split; [exact E409 | ]. split; [exact Edb | ].
  exists (new_user env data1 h w). rewrite Edb. subst r1.
  unfold users_with_email.
  rewrite Hdb. cbn [users set_users]. split; [ | split; reflexivity].
  rewrite filter_app. unfold find_user_by_email in F.
  rewrite (filter_find_none _ _ F). cbn [filter app new_user u_email].
  rewrite String.eqb_refl. reflexivity.
Qed.

Lemma duplicate_signup_conflict_witness :
  request_email Sample.env_ticking Sample.signup_second
  = request_email Sample.env_ticking Sample.signup_first
  /\ fst (signup Sample.env_ticking (Ok (JDict Sample.signup_second))
            (snd (signup Sample.env_ticking (Ok (JDict Sample.signup_first))
                    Sample.w_empty)))
     = Ok (ErrorBody "Email already registered", 409)
  /\ exists user,
       users_with_email (request_email Sample.env_ticking Sample.signup_first)
          (db (snd (signup Sample.env_ticking (Ok (JDict Sample.signup_second))
                      (snd (signup Sample.env_ticking
                              (Ok (JDict Sample.signup_first)) Sample.w_empty)))))
       = [user]
       /\ u_name user = "Jo".
Proof.
  split; [reflexivity | ].
  assert (H201 : exists b,
             fst (signup Sample.env_ticking (Ok (JDict Sample.signup_first))
                    Sample.w_empty) = Ok (b, 201))
    by (eexists; vm_compute; reflexivity).
  destruct H201 as [b1 H201].
  destruct (duplicate_signup_conflict Sample.env_ticking Sample.w_empty
              Sample.signup_first Sample.signup_second b1 H201 eq_refl)
    as [H2 [_ [user [H4 [H5 _]]]]].
  split; [exact (H2 eq_refl) | ]. exists user. split; [exact H4 | exact H5].
Defined.

(* ===================================================================== *)
(** ** The stream endpoint *)
(* ===================================================================== *)

Lemma get_video_stream_authorized env w w' user_id video_id token video log_fault :
  token <> "" ->
  verify_playback_token env video_id user_id token w = (Ok true, w') ->
  find_video_by_id video_id (db w) = Some video ->
  v_is_active video <> Some false ->
  get_video_stream env user_id video_id (Some token) log_fault w
  = (Ok (stream_data video_id video, 200),
     after_watch_log env user_id video_id log_fault w').
Proof.
  intros Hne E Hfind Hact.
  destruct token as [| c t]; [contradiction Hne; reflexivity | ].
  pose proof (verify_playback_token_reads_only env video_id user_id (String c t) w)
    as Hdb.
  rewrite E in Hdb. cbn [snd] in Hdb.
  unfold get_video_stream. apply try_except_ok.
  rewrite (bind_ok _ _ _ _ _ E). cbn [negb].
  unfold bind at 1, get_db at 1. cbv beta iota.
  rewrite Hdb, Hfind.
  assert (Hbody : forall (m : M Response),
             (match v_is_active video with
              | Some false => ret (ErrorBody "Video is not available", 403)
              | _ => m
              end) = m).
  { intro m. destruct (v_is_active video) as [[|] |]; try reflexivity.
    contradiction Hact; reflexivity. }
  rewrite Hbody.
  unfold after_watch_log, bind, try_except, datetime_now,
    watch_history_insert_one.
  destruct log_fault as [x |]; reflexivity.
Qed.

(** C9. A failure to record the watch event does not fail the stream
    request: when the playback code verifies and the video is found and
    available, the answer is the 200 stream descriptor whether the insertion
    into the watch history fails (with any exception) or not; on a failure
    the database is left as it was. *)
Theorem stream_log_failure_is_swallowed :
  forall env w user_id video_id token video fault,
    token <> "" ->
    fst (verify_playback_token env video_id user_id token w) = Ok true ->
    find_video_by_id video_id (db w) = Some video ->
    v_is_active video <> Some false ->
    fst (get_video_stream env user_id video_id (Some token) (Some fault) w)
    = Ok (stream_data video_id video, 200)
    /\ fst (get_video_stream env user_id video_id (Some token) (Some fault) w)
       = fst (get_video_stream env user_id video_id (Some token) None w)
    /\ db (snd (get_video_stream env user_id video_id (Some token) (Some fault) w))
       = db w.
Proof.
  intros env w user_id video_id token video fault Hne Hver Hfind Hact.
  destruct (verify_playback_token env video_id user_id token w)
    as [r w'] eqn:E.
  cbn [fst] in Hver. subst r.
  rewrite (get_video_stream_authorized env w w' user_id video_id token video
             (Some fault) Hne E Hfind Hact).
  rewrite (get_video_stream_authorized env w w' user_id video_id token video
             None Hne E Hfind Hact).
  cbn [fst snd after_watch_log db].
  split; [reflexivity | ]. split; [reflexivity | ].
  pose proof (verify_playback_token_reads_only env video_id user_id token w)
    as Hdb.
  rewrite E in Hdb. exact Hdb.
Qed.

Lemma stream_log_failure_is_swallowed_witness :
  fst (verify_playback_token Sample.env_ticking "v1" "u1" Sample.code1 Sample.w1)
  = Ok true
  /\ find_video_by_id "v1" (db Sample.w1) = Some Sample.video1
  /\ fst (get_video_stream Sample.env_ticking "u1" "v1" (Some Sample.code1)
            (Some PyMongoError) Sample.w1)
     = Ok (stream_data "v1" Sample.video1, 200).
Proof.
  assert (Hver : fst (verify_playback_token Sample.env_ticking "v1" "u1"
                        Sample.code1 Sample.w1) = Ok true)
    by (vm_compute; reflexivity).
  split; [exact Hver | ]. split; [reflexivity | ].
  refine (proj1 (stream_log_failure_is_swallowed Sample.env_ticking Sample.w1
                   "u1" "v1" Sample.code1 Sample.video1 PyMongoError
                   _ Hver eq_refl _)).
  - discriminate.
  - discriminate.
Defined.


(* ===================================================================== *)
(** ** More on playback codes *)
(* ===================================================================== *)

Lemma length_app_string a b :
  String.length (a ++ b) = (String.length a + String.length b)%nat.
Proof. induction a as [| c a IH]; cbn; [reflexivity | now rewrite IH]. Qed.

Lemma hex_nibbles_length n : forall x acc,
  String.length (SHA256.hex_nibbles n x acc) = (n + String.length acc)%nat.
Proof.
  induction n as [| n IH]; intros x acc; cbn [SHA256.hex_nibbles].
  - reflexivity.
  - rewrite IH. cbn [String.length]. lia.
Qed.

Lemma hex_words_length ws :
  String.length (SHA256.hex_words ws) = (8 * List.length ws)%nat.
Proof.
  induction ws as [| w ws IH]; cbn [SHA256.hex_words List.length].
  - reflexivity.
  - rewrite length_app_string, hex_nibbles_length, IH. cbn [String.length]. lia.
Qed.

Lemma compress_length h block :
  List.length h = 8%nat -> List.length (SHA256.compress h block) = 8%nat.
Proof.
  intro H. unfold SHA256.compress.
  rewrite length_map, length_combine, H. reflexivity.
Qed.

Lemma blocks_length n : forall h bs,
  List.length h = 8%nat -> List.length (SHA256.blocks n h bs) = 8%nat.
Proof.
  induction n as [| n IH]; intros h bs H; cbn [SHA256.blocks].
  - exact H.
  - apply IH, compress_length, H.
Qed.

(** A digest in hexadecimal has sixty-four characters. *)
Lemma hexdigest_length data : String.length (SHA256.hexdigest data) = 64%nat.
Proof.
  unfold SHA256.hexdigest, SHA256.digest.
  rewrite hex_words_length, blocks_length; reflexivity.
Qed.

Lemma eqb_length_neq a b :
  String.length a <> String.length b -> String.eqb a b = false.
Proof.
  intro H. apply String.eqb_neq. intro E. apply H. now rewrite E.
Qed.

(** X1. [generate_playback_token] never fails and never writes: it reads
    the clock once and returns the code of that instant, sixty-four ASCII
    characters. *)
Theorem generate_playback_token_shape :
  forall env video_id user_id w,
    generate_playback_token env video_id user_id w
    = (Ok (playback_code env video_id user_id (clock env (ticks w))),
       mkWorld (db w) (S (ticks w)) (draws w))
    /\ String.length (playback_code env video_id user_id (clock env (ticks w)))
       = 64%nat
    /\ Py.isascii (playback_code env video_id user_id (clock env (ticks w)))
       = true.
Proof.
  intros env video_id user_id w. split; [reflexivity | ].
  split; [apply hexdigest_length | apply hexdigest_ascii].
Qed.

Lemma verify_playback_loop_rejects_wrong_length env offs v u t :
  Py.isascii t = true ->
  String.length t <> 64%nat ->
  forall w,
    verify_playback_loop env offs v u t w
    = (Ok false, mkWorld (db w) (List.length offs + ticks w) (draws w)).
Proof.
  intros Ha Hl. induction offs as [| h rest IH]; intro w.
  - destruct w; reflexivity.
  - rewrite verify_playback_loop_cons. cbv zeta.
    rewrite compare_digest_ascii by exact Ha.
    rewrite eqb_length_neq by (rewrite hexdigest_length; exact Hl).
    rewrite IH. cbn [db ticks draws List.length]. f_equal. f_equal. lia.
Qed.

(** X2. A malformed code fails to match: on an ASCII code that has not
    sixty-four characters, [verify_playback_token] returns [False] after its
    three turns, whatever the clock, the video and the user. *)
Theorem verify_playback_token_rejects_wrong_length :
  forall env video_id user_id token w,
    Py.isascii token = true ->
    String.length token <> 64%nat ->
    verify_playback_token env video_id user_id token w
    = (Ok false, mkWorld (db w) (3 + ticks w) (draws w)).
Proof.
  intros env video_id user_id token w Ha Hl.
  apply (verify_playback_loop_rejects_wrong_length env [0; 1; 2]); assumption.
Qed.

Lemma verify_playback_token_rejects_wrong_length_witness :
  Py.isascii "not-a-code" = true
  /\ String.length "not-a-code" <> 64%nat
  /\ fst (verify_playback_token Sample.env_ticking "v1" "u1" "not-a-code" Sample.w1)
     = Ok false.
Proof.
  split; [reflexivity | ]. split; [discriminate | ].
  rewrite (verify_playback_token_rejects_wrong_length Sample.env_ticking
             "v1" "u1" "not-a-code" Sample.w1 eq_refl);
    [reflexivity | discriminate].
Defined.

Lemma verify_playback_loop_bounds env offs v u t :
  Py.isascii t = true ->
  forall w, exists b w',
    verify_playback_loop env offs v u t w = (Ok b, w')
    /\ db w' = db w /\ draws w' = draws w
    /\ (ticks w <= ticks w' <= List.length offs + ticks w)%nat
    /\ (offs <> [] -> ticks w < ticks w')%nat.
Proof.
  intro Ha. induction offs as [| h rest IH]; intro w.
  - exists false, w. cbn. repeat split; try lia. intro C; contradiction C; reflexivity.
  - rewrite verify_playback_loop_cons. cbv zeta.
    rewrite compare_digest_ascii by exact Ha.
    destruct (String.eqb t _).
    + eexists _, _. split; [reflexivity | ]. cbn. repeat split; lia.
    + destruct (IH (mkWorld (db w) (S (ticks w)) (draws w)))
        as [b [w' [E [Hdb [Hdr [Hti _]]]]]].
      exists b, w'. split; [exact E | ]. cbn in *. repeat split; try lia; assumption.
Qed.

(** X3. On an ASCII code the verification is total and read-only: it
    returns a boolean, leaves the database and the random draws alone, and
    reads the clock at least once and at most three times. *)
Theorem verify_playback_token_ascii_returns :
  forall env video_id user_id token w,
    Py.isascii token = true ->
    exists b w',
      verify_playback_token env video_id user_id token w = (Ok b, w')
      /\ db w' = db w /\ draws w' = draws w
      /\ (ticks w < ticks w' <= 3 + ticks w)%nat.
Proof.
  intros env video_id user_id token w Ha.
  destruct (verify_playback_loop_bounds env [0; 1; 2] video_id user_id token Ha w)
    as [b [w' [E [Hdb [Hdr [Hti Hlt]]]]]].
  exists b, w'. split; [exact E | ]. cbn in Hti.
  repeat split; try assumption; try lia.
  apply Hlt. discriminate.
Qed.

Lemma verify_playback_token_ascii_returns_witness :
  Py.isascii Sample.code1 = true
  /\ exists b w',
       verify_playback_token Sample.env_ticking "v1" "u1" Sample.code1 Sample.w1
       = (Ok b, w')
       /\ db w' = db Sample.w1.
Proof.
  split; [reflexivity | ].
  destruct (verify_playback_token_ascii_returns Sample.env_ticking
              "v1" "u1" Sample.code1 Sample.w1 eq_refl)
    as [b [w' [E [Hdb _]]]].
  exists b, w'. split; [exact E | exact Hdb].
Defined.

Lemma verify_playback_loop_accepts env v u t offs : forall w k h,
  nth_error offs k = Some h ->
  clock env (k + ticks w) - DateTime.hours h = t ->
  fst (verify_playback_loop env offs v u (playback_code env v u t) w) = Ok true.
Proof.
  induction offs as [| h0 rest IH]; intros w k h Hnth Ht.
  - destruct k; discriminate Hnth.
  - rewrite verify_playback_loop_cons. cbv zeta. unfold playback_code at 1.
    rewrite compare_digest_ascii by apply hexdigest_ascii.
    match goal with
    | |- context [if ?c then _ else _] => destruct c eqn:E
    end; [reflexivity | ].
    destruct k as [| k]; cbn [nth_error] in Hnth.
    + inversion Hnth; subst h0. cbn [Nat.add] in Ht.
      unfold playback_code in E. rewrite Ht, String.eqb_refl in E. discriminate.
    + apply (IH _ k h Hnth). cbn [ticks].
      replace (k + S (ticks w))%nat with (S k + ticks w)%nat by lia. exact Ht.
Qed.

(** X4. The acceptance window of the code as written: the code of the
    instant [t] is accepted when the reading of the clock at the first,
    second or third turn of the loop is exactly [t], [t] plus one hour or
    [t] plus two hours. *)
Theorem verify_playback_token_accepts_exact_offsets :
  forall env video_id user_id t w k,
    (k <= 2)%nat ->
    clock env (k + ticks w) - DateTime.hours (Z.of_nat k) = t ->
    fst (verify_playback_token env video_id user_id
           (playback_code env video_id user_id t) w) = Ok true.
Proof.
  intros env video_id user_id t w k Hk Ht.
  apply (verify_playback_loop_accepts env video_id user_id t [0; 1; 2] w k
           (Z.of_nat k)); [ | exact Ht].
  assert (C : k = 0%nat \/ k = 1%nat \/ k = 2%nat) by lia.
  destruct C as [C | [C | C]]; subst k; reflexivity.
Qed.

Lemma verify_playback_token_accepts_exact_offsets_witness :
  clock Sample.env_two_hours_later (2 + ticks Sample.w1)
    - DateTime.hours (Z.of_nat 2) = Sample.t0
  /\ fst (verify_playback_token Sample.env_two_hours_later "v1" "u1"
            (playback_code Sample.env_two_hours_later "v1" "u1" Sample.t0)
            Sample.w1) = Ok true.
Proof.
  split; [reflexivity | ].
  apply (verify_playback_token_accepts_exact_offsets Sample.env_two_hours_later
           "v1" "u1" Sample.t0 Sample.w1 2%nat); [lia | reflexivity].
Defined.

(* ===================================================================== *)
(** ** More on the stream endpoint *)
(* ===================================================================== *)

(** The two ways a stream request ends: served, after a code that verified
    and a video found and available; or refused with an error body, the
    database being left as it was. *)
Lemma get_video_stream_cases env user_id video_id arg_token log_fault w :
  (exists token video w1,
      arg_token = Some token /\ token <> ""
      /\ verify_playback_token env video_id user_id token w = (Ok true, w1)
      /\ find_video_by_id video_id (db w) = Some video
      /\ v_is_active video <> Some false
      /\ get_video_stream env user_id video_id arg_token log_fault w
         = (Ok (stream_data video_id video, 200),
            after_watch_log env user_id video_id log_fault w1))
  \/ (exists msg code w',
         get_video_stream env user_id video_id arg_token log_fault w
         = (Ok (ErrorBody msg, code), w')
         /\ db w' = db w
         /\ (code = 403 \/ code = 404 \/ code = 500)).
Proof.
  destruct arg_token as [[| c t] |].
  - right. exists "Invalid or expired token", 403, w. repeat split. now left.
  - pose proof (verify_playback_token_reads_only env video_id user_id (String c t) w)
      as Hdb.
    destruct (verify_playback_token env video_id user_id (String c t) w)
      as [[[|] | e] w1] eqn:E; cbn [snd] in Hdb.
    + destruct (find_video_by_id video_id (db w)) as [video |] eqn:F.
      * destruct (v_is_active video) as [[|] |] eqn:A.
        -- left. exists (String c t), video, w1.
           split; [reflexivity | ]. split; [discriminate | ].
           split; [exact E | ]. split; [reflexivity | ].
           split; [rewrite A; discriminate | ].
           apply get_video_stream_authorized; try assumption;
             [discriminate | rewrite A; discriminate].
        -- right. exists "Video is not available", 403, w1.
           split; [ | split; [exact Hdb | now left]].
           unfold get_video_stream. apply try_except_ok.
           rewrite (bind_ok _ _ _ _ _ E). cbn [negb].
           unfold bind, get_db. rewrite Hdb, F, A. reflexivity.
        -- left. exists (String c t), video, w1.
           split; [reflexivity | ]. split; [discriminate | ].
           split; [exact E | ]. split; [reflexivity | ].
           split; [rewrite A; discriminate | ].
           apply get_video_stream_authorized; try assumption;
             [discriminate | rewrite A; discriminate].
      * right. exists "Video not found", 404, w1.
        split; [ | split; [exact Hdb | right; now left]].
        unfold get_video_stream. apply try_except_ok.
        rewrite (bind_ok _ _ _ _ _ E). cbn [negb].
        unfold bind, get_db. rewrite Hdb, F. reflexivity.
    + right. exists "Invalid or expired token", 403, w1.
      split; [ | split; [exact Hdb | now left]].
      unfold get_video_stream. apply try_except_ok.
      rewrite (bind_ok _ _ _ _ _ E). reflexivity.
    + right. exists "Internal server error", 500, w1.
      split; [ | split; [exact Hdb | right; now right]].
      unfold get_video_stream.
      erewrite try_except_raise by (apply bind_raise; exact E). reflexivity.
  - right. exists "Invalid or expired token", 403, w. repeat split. now left.
Qed.

(** X5. The stream endpoint serves only an authorized request: a 200 is
    answered only when a non-empty code was presented that
    [verify_playback_token] accepted for this video and this user, and the
    video exists and is not deactivated; the body is then the descriptor of
    that video. *)
Theorem stream_200_only_if_authorized :
  forall env user_id video_id arg_token log_fault w b,
    fst (get_video_stream env user_id video_id arg_token log_fault w) = Ok (b, 200) ->
    exists token video,
      arg_token = Some token /\ token <> ""
      /\ fst (verify_playback_token env video_id user_id token w) = Ok true
      /\ find_video_by_id video_id (db w) = Some video
      /\ v_is_active video <> Some false
      /\ b = stream_data video_id video.
Proof.
  intros env user_id video_id arg_token log_fault w b H.
  destruct (get_video_stream_cases env user_id video_id arg_token log_fault w)
    as [[token [video [w1 [Ht [Hne [Hv [Hf [Ha E]]]]]]]]
       | [msg [code [w' [E [_ Hc]]]]]];
    rewrite E in H; cbn [fst] in H.
  - exists token, video. rewrite Hv. inversion H. repeat split; assumption.
  - inversion H; subst. destruct Hc as [C | [C | C]]; discriminate C.
Qed.

Lemma stream_200_only_if_authorized_witness :
  fst (get_video_stream Sample.env_ticking "u1" "v1" (Some Sample.code1) None
         Sample.w1) = Ok (stream_data "v1" Sample.video1, 200)
  /\ exists token video,
       Some Sample.code1 = Some token
       /\ fst (verify_playback_token Sample.env_ticking "v1" "u1" token Sample.w1)
          = Ok true
       /\ find_video_by_id "v1" (db Sample.w1) = Some video.
Proof.
  assert (H : fst (get_video_stream Sample.env_ticking "u1" "v1"
                     (Some Sample.code1) None Sample.w1)
              = Ok (stream_data "v1" Sample.video1, 200))
    by (vm_compute; reflexivity).
  split; [exact H | ].
  destruct (stream_200_only_if_authorized _ _ _ _ _ _ _ H)
    as [token [video [Ht [_ [Hv [Hf _]]]]]].
  exists token, video. repeat split; assumption.
Defined.

(** X6. The stream endpoint writes at most one watch event, and only when
    it serves: either the database is left as it was, or the answer is the
    200 descriptor and the database differs by one event appended to the
    watch history, for this user and this video with the action
    "stream_requested".  Users, videos and the revocation registry are
    never written. *)
Theorem stream_writes_at_most_one_watch_event :
  forall env user_id video_id arg_token log_fault w,
    let r := get_video_stream env user_id video_id arg_token log_fault w in
    db (snd r) = db w
    \/ exists video watched_at,
         fst r = Ok (stream_data video_id video, 200)
         /\ db (snd r)
            = set_watch_history (db w)
                (watch_history (db w)
                   ++ [mkWatch user_id video_id watched_at "stream_requested"]).
Proof.
  intros env user_id video_id arg_token log_fault w r. subst r.
  destruct (get_video_stream_cases env user_id video_id arg_token log_fault w)
    as [[token [video [w1 [Ht [Hne [Hv [Hf [Ha E]]]]]]]]
       | [msg [code [w' [E [Hdb _]]]]]];
    rewrite E; cbn [fst snd].
  - pose proof (verify_playback_token_reads_only env video_id user_id token w)
      as Hdb.
    rewrite Hv in Hdb. cbn [snd] in Hdb.
    destruct log_fault as [x |]; cbn [after_watch_log db].
    + left. exact Hdb.
    + right. exists video, (clock env (ticks w1)).
      split; [reflexivity | ]. rewrite Hdb. reflexivity.
  - left. exact Hdb.
Qed.

(** X7. A missing, empty or malformed playback code is refused with 403
    "Invalid or expired token", before the video is looked up: this holds
    when no code is given, and for every ASCII code that has not sixty-four
    characters, the empty one included. *)
Theorem stream_malformed_code_is_403 :
  forall env user_id video_id arg_token log_fault w,
    match arg_token with
    | None => True
    | Some token => Py.isascii token = true /\ String.length token <> 64%nat
    end ->
    fst (get_video_stream env user_id video_id arg_token log_fault w)
    = Ok (ErrorBody "Invalid or expired token", 403)
    /\ db (snd (get_video_stream env user_id video_id arg_token log_fault w))
       = db w.
Proof.
  intros env user_id video_id arg_token log_fault w H.
  destruct arg_token as [[| c t] |]; [split; reflexivity | | split; reflexivity].
  destruct H as [Ha Hl].
  pose proof (verify_playback_loop_rejects_wrong_length env [0; 1; 2]
                video_id user_id (String c t) Ha Hl w) as E.
  fold (verify_playback_token env video_id user_id (String c t)) in E.
  unfold get_video_stream.
  erewrite try_except_ok by (rewrite (bind_ok _ _ _ _ _ E); reflexivity).
  split; reflexivity.
Qed.

Lemma stream_malformed_code_is_403_witness :
  (Py.isascii "not-a-code" = true /\ String.length "not-a-code" <> 64%nat)
  /\ fst (get_video_stream Sample.env_ticking "u1" "v1" (Some "not-a-code") None
            Sample.w1)
     = Ok (ErrorBody "Invalid or expired token", 403).
Proof.
  assert (H : Py.isascii "not-a-code" = true
              /\ String.length "not-a-code" <> 64%nat)
    by (split; [reflexivity | discriminate]).
  split; [exact H | ].
  exact (proj1 (stream_malformed_code_is_403 Sample.env_ticking "u1" "v1"
                  (Some "not-a-code") None Sample.w1 H)).
Defined.

(* ===================================================================== *)
(** ** More on the revocation registry *)
(* ===================================================================== *)

Lemma logout_run env token w :
  logout env token w
  = if idx_tokens_jti (db w) && check_if_token_revoked token (db w)
    then (Ok (ErrorBody "Internal server error", 500),
          mkWorld (db w) (S (ticks w)) (draws w))
    else (Ok (MessageBody "Logout successful", 200),
          mkWorld (set_tokens (db w)
                     (tokens (db w)
                        ++ [mkRevoked (jti token) (sub token)
                                      (clock env (ticks w))])%list)
                  (S (ticks w)) (draws w)).
Proof.
  unfold logout, tokens_insert_one, try_except, bind, datetime_now, get_db.
  cbn [db ticks draws r_jti fst snd].
  rewrite check_if_token_revoked_existsb.
  destruct (idx_tokens_jti (db w) && check_if_token_revoked token (db w));
    reflexivity.
Qed.

Lemma check_if_token_revoked_app p d r :
  check_if_token_revoked p (set_tokens d (tokens d ++ [r])%list)
  = check_if_token_revoked p d || String.eqb (r_jti r) (jti p).
Proof.
  rewrite <- !check_if_token_revoked_existsb. cbn [tokens set_tokens].
  rewrite existsb_app. cbn [existsb]. now rewrite orb_false_r.
Qed.


(** X9. A logout revokes one [jti] only: for a token with another [jti] the
    blacklist check answers after the logout as it did before. *)
Theorem logout_leaves_other_jti :
  forall env token w payload,
    jti payload <> jti token ->
    check_if_token_revoked payload (db (snd (logout env token w)))
    = check_if_token_revoked payload (db w).
Proof.
  intros env token w payload Hne. rewrite logout_run.
  destruct (idx_tokens_jti (db w) && check_if_token_revoked token (db w));
    cbn [snd db]; [reflexivity | ].
  rewrite check_if_token_revoked_app. cbn [r_jti].
  assert (E : String.eqb (jti token) (jti payload) = false).
  { apply String.eqb_neq. intro C. apply Hne. now rewrite C. }
  rewrite E. apply orb_false_r.
Qed.

Lemma logout_leaves_other_jti_witness :
  jti Sample.token2 <> jti Sample.token1
  /\ check_if_token_revoked Sample.token2
       (db (snd (logout Sample.env_ticking Sample.token1 Sample.w1))) = false
  /\ check_if_token_revoked Sample.token1
       (db (snd (logout Sample.env_ticking Sample.token1 Sample.w1))) = true.
Proof.
  assert (H : jti Sample.token2 <> jti Sample.token1) by discriminate.
  split; [exact H | ]. split; [ | reflexivity].
  rewrite (logout_leaves_other_jti Sample.env_ticking Sample.token1 Sample.w1
             Sample.token2 H).
  reflexivity.
Defined.

(** X10. Only [logout] writes the revocation registry: every other request
    leaves it exactly as it was, so that no request un-revokes a token. *)
Theorem only_logout_writes_registry :
  forall env r w,
    match r with Logout _ => False | _ => True end ->
    tokens (db (snd (handle env r w))) = tokens (db w).
Proof.
  intros env r w Hr. symmetry.
  assert (Rrefl : forall d, same_tokens d d) by reflexivity.
  assert (Rtrans : forall a b c, same_tokens a b -> same_tokens b c -> same_tokens a c)
    by (unfold same_tokens; intros; congruence).
  assert (Rusers : forall d l, same_tokens d (set_users d l)) by reflexivity.
  assert (Rwatch : forall d l, same_tokens d (set_watch_history d l)) by reflexivity.
  destruct r; cbn [handle]; try contradiction.
  - apply (keeps_signup same_tokens Rrefl Rtrans Rusers).
  - apply (keeps_login same_tokens Rrefl Rtrans Rusers).
  - apply (keeps_refresh same_tokens Rrefl Rtrans).
  - apply (keeps_get_current_user same_tokens Rrefl Rtrans).
  - apply (keeps_get_dashboard same_tokens Rrefl Rtrans).
  - apply (keeps_get_video_stream same_tokens Rrefl Rtrans Rwatch).
Qed.

Lemma only_logout_writes_registry_witness :
  tokens (db (snd (handle Sample.env_ticking (Refresh "u1") Sample.w_revoked)))
  = tokens (db Sample.w_revoked).
Proof.
  exact (only_logout_writes_registry Sample.env_ticking (Refresh "u1")
           Sample.w_revoked I).
Defined.

(** X11. The registry outlives the token.  For the access and the refresh
    token of a pair made by [generate_tokens], an entry that revokes the
    token at or after its issue becomes eligible for the TTL purge only once
    the token itself has expired: seven days of retention cover the fifteen
    minutes of an access token and the seven days of a refresh token. *)
Theorem registry_entry_outlives_token :
  forall env user_id w pair w' c revoked_at now,
    generate_tokens env user_id w = (Ok pair, w') ->
    c = access_token pair \/ c = refresh_token pair ->
    iat c <= revoked_at ->
    purge_eligible now (mkRevoked (jti c) (sub c) revoked_at) = true ->
    exp c <= now.
Proof.
  intros env user_id w pair w' c revoked_at now Hgen Hc Hiat Hpurge.
  unfold purge_eligible in Hpurge. apply Z.leb_le in Hpurge.
  cbn [r_revoked_at] in Hpurge.
  unfold generate_tokens, create_access_token, create_refresh_token, bind,
    datetime_now, uuid_uuid4, ret in Hgen.
  inversion Hgen; subst pair. clear Hgen.
  unfold expireAfterSeconds, DateTime.usec_per_sec in Hpurge.
  destruct Hc as [Hc | Hc]; subst c; cbn [access_token refresh_token iat exp] in *;
    unfold JWT_ACCESS_TOKEN_EXPIRES, JWT_REFRESH_TOKEN_EXPIRES, DateTime.minutes,
      DateTime.days, DateTime.usec_per_day, DateTime.usec_per_hour,
      DateTime.usec_per_sec; lia.
Qed.

Lemma registry_entry_outlives_token_witness :
  exists pair w',
    generate_tokens Sample.env_ticking "u1" Sample.w1 = (Ok pair, w')
    /\ purge_eligible (Sample.t0 + DateTime.days 8)
         (mkRevoked (jti (refresh_token pair)) (sub (refresh_token pair))
                    (Sample.t0 + DateTime.days 1)) = true
    /\ exp (refresh_token pair) <= Sample.t0 + DateTime.days 8.
Proof.
  eexists _, _. split; [reflexivity | ]. split; [reflexivity | ].
  eapply (registry_entry_outlives_token Sample.env_ticking "u1" Sample.w1 _ _ _
            (Sample.t0 + DateTime.days 1));
    [reflexivity | right; reflexivity | cbn; lia | reflexivity].
Defined.

(* ===================================================================== *)
(** ** More on signup and login *)
(* ===================================================================== *)

(** A dict that passes the validation is never answered 400. *)
Lemma signup_valid_not_400 env data w b :
  signup_fields_valid env data = true ->
  fst (signup env (Ok (JDict data)) w) <> Ok (b, 400).
Proof.
  intros V H.
  destruct (find_user_by_email (request_email env data) (db w)) as [u |] eqn:F.
  - rewrite (signup_registered_address env data w u V F) in H. discriminate H.
  - destruct (hashed_password env data w) as [h | e] eqn:Hh.
    + destruct (existsb (fun x => String.eqb (u_id x) (uuid4 env (draws w)))
                        (users (db w))) eqn:X.
      * destruct (signup_insertion_fails env data w V F (or_intror X)) as [E _].
        rewrite E in H. discriminate H.
      * destruct (signup_new_address env data w h V F Hh X) as [tk [w' [E _]]].
        rewrite E in H. discriminate H.
    + destruct (signup_insertion_fails env data w V F
                  (or_introl (ex_intro _ e Hh))) as [E _].
      rewrite E in H. discriminate H.
Qed.

(** A dict whose three fields are text and that fails the validation is
    answered 400. *)
Lemma signup_text_not_valid env data w :
  signup_fields_are_text data = true ->
  signup_fields_valid env data = false ->
  exists msg,
    signup env (Ok (JDict data)) w = (Ok (ErrorBody msg, 400), w)
    /\ signup_validation_message msg.
Proof.
  unfold signup_fields_are_text, signup_fields_valid, signup_validation_message,
    request_name, request_email, request_password, signup, try_except.
  intros T H. rewrite bind_lift_ok.
  destruct data as [| kv rest];
    [exists "No data provided"; split; [reflexivity | tauto] | ].
  cbn [jtruthy negb jget]. rewrite bind_lift_ok.
  destruct (dict_get "name" (JStr "") (kv :: rest)) as [| b | n | nz | nm | l | l];
    try discriminate T.
  cbn [jstrip]. rewrite bind_lift_ok, bind_lift_ok.
  destruct (dict_get "email" (JStr "") (kv :: rest)) as [| b | n | nz | e | l | l];
    try discriminate T.
  cbn [jstrip]. rewrite bind_lift_ok, bind_lift_ok.
  destruct (dict_get "password" (JStr "") (kv :: rest)) as [| b | n | nz | p | l | l];
    try discriminate T.
  destruct (Py.truthy (str_strip env nm)); cbn [negb orb andb] in *;
    [ | exists "Name, email, and password are required";
        split; [reflexivity | tauto]].
  destruct (Py.truthy (str_lower env (str_strip env e))); cbn [negb orb andb] in *;
    [ | exists "Name, email, and password are required";
        split; [reflexivity | tauto]].
  destruct (jtruthy (JStr p)); cbn [negb orb andb] in *;
    [ | exists "Name, email, and password are required";
        split; [reflexivity | tauto]].
  cbn [jlen] in *. rewrite bind_lift_ok.
  apply Z.leb_gt in H. apply Z.ltb_lt in H. rewrite H.
  exists "Password must be at least 6 characters". split; [reflexivity | tauto].
Qed.

(** X12. The validation of signup.  A body that is falsy ([null], an empty
    object) is answered 400 "No data provided".  A dict whose name, address
    and password are text, and one of which is missing or empty once
    normalised, or whose password has fewer than six characters, is answered
    400 with one of the three messages of the validation.  Conversely a
    signup answered 400 carries one of the three messages and its body was
    not a dict that passes the validation.  In all these cases nothing has
    changed: no lookup, no draw, no reading of the clock.  (A body that
    cannot be read, or a field of another JSON type, may give 500.) *)
Theorem signup_invalid_is_400_noop :
  forall env get_json w,
    (forall v, get_json = Ok v -> jtruthy v = false ->
        signup env get_json w = (Ok (ErrorBody "No data provided", 400), w))
    /\ (forall data,
          get_json = Ok (JDict data) ->
          signup_fields_are_text data = true ->
          signup_fields_valid env data = false ->
          exists msg,
            signup env get_json w = (Ok (ErrorBody msg, 400), w)
            /\ signup_validation_message msg)
    /\ (forall b w',
          signup env get_json w = (Ok (b, 400), w') ->
          w' = w
          /\ (exists msg, b = ErrorBody msg /\ signup_validation_message msg)
          /\ (forall data, get_json = Ok (JDict data) ->
                           signup_fields_valid env data = false)).
Proof.
  intros env get_json w. split; [ | split].
  - intros v E T. subst get_json. unfold signup, try_except.
    rewrite bind_lift_ok, T. reflexivity.
  - intros data E T V. subst get_json. apply signup_text_not_valid; assumption.
  - intros b w' H.
    assert (N : forall data, get_json = Ok (JDict data) ->
                             signup_fields_valid env data = false).
    { intros data E. subst get_json.
      destruct (signup_fields_valid env data) eqn:V; [ | reflexivity].
      exfalso. apply (signup_valid_not_400 env data w b V). now rewrite H. }
    destruct (signup_not_valid env get_json w N) as [msg [code [E C]]].
    rewrite E in H. inversion H; subst. split; [reflexivity | ].
    split; [ | exact N].
    destruct C as [[_ C] | C]; [ | discriminate C].
    exists msg. split; [reflexivity | exact C].
Qed.

Lemma signup_invalid_is_400_noop_witness :
  jlen (request_password Sample.signup_short_password) = Ok 5
  /\ signup_fields_valid Sample.env_ticking Sample.signup_short_password = false
  /\ exists msg,
       signup Sample.env_ticking (Ok (JDict Sample.signup_short_password))
         Sample.w_empty = (Ok (ErrorBody msg, 400), Sample.w_empty)
       /\ signup_validation_message msg.
Proof.
  split; [reflexivity | ]. split; [reflexivity | ].
  exact (proj1 (proj2 (signup_invalid_is_400_noop Sample.env_ticking
                         (Ok (JDict Sample.signup_short_password))
                         Sample.w_empty))
           Sample.signup_short_password eq_refl eq_refl eq_refl).
Defined.

(** What a signup does to the database: nothing, or one user appended, and
    then only for a valid body, an address that no user has and an
    identifier that no user has. *)
Lemma signup_db_cases env get_json w :
  db (snd (signup env get_json w)) = db w
  \/ exists data h,
       get_json = Ok (JDict data)
       /\ find_user_by_email (request_email env data) (db w) = None
       /\ existsb (fun x => String.eqb (u_id x) (uuid4 env (draws w)))
                  (users (db w)) = false
       /\ db (snd (signup env get_json w))
          = set_users (db w) (users (db w) ++ [new_user env data h w]).
Proof.
  destruct (signup_cases env get_json w)
    as [[msg [code [E _]]] | [[msg [_ E]] | [data [h [tk [w' R]]]]]].
  - left. rewrite E. reflexivity.
  - left. exact E.
  - right. destruct R as [Eg [_ [F [_ [X [Es [_ Hdb]]]]]]].
    exists data, h. rewrite Es. cbn [snd]. repeat split; assumption.
Qed.

(** A login that passes every check answers 200 with a pair of tokens for
    the user and records the instant in [last_login]. *)
Lemma login_success env data w user :
  login_fields_present env data = true ->
  find_user_by_email (request_email env data) (db w) = Some user ->
  verify_password env (request_password data) (u_password_hash user) = Ok true ->
  u_is_active user <> Some false ->
  exists tokens w',
    login env (Ok (JDict data)) w
    = (Ok (AuthBody "Login successful"
             (mkUserView (u_id user) (u_name user) (u_email user)) tokens, 200), w')
    /\ sub (access_token tokens) = u_id user
    /\ sub (refresh_token tokens) = u_id user
    /\ typ (access_token tokens) = Access
    /\ typ (refresh_token tokens) = RefreshT
    /\ db w' = set_users (db w)
                 (set_last_login (u_id user) (clock env (S (S (ticks w))))
                    (users (db w))).
Proof.
  intros Hf Hfind Hpw Hact.
  rewrite (login_present env data w Hf), Hfind, Hpw.
  assert (E : match u_is_active user with
              | Some false => (Ok (ErrorBody "Account is deactivated", 403), w)
              | _ => login_granted env user w
              end = login_granted env user w).
  { destruct (u_is_active user) as [[|] |]; try reflexivity.
    contradiction Hact; reflexivity. }
  rewrite E. unfold login_granted.
  eexists _, _. split; [reflexivity | ]. cbn. repeat split.
Qed.

Lemma login_refuses_deactivated :
  forall env data w user,
    login_fields_present env data = true ->
    find_user_by_email (request_email env data) (db w) = Some user ->
    verify_password env (request_password data) (u_password_hash user) = Ok true ->
    u_is_active user = Some false ->
    login env (Ok (JDict data)) w
    = (Ok (ErrorBody "Account is deactivated", 403), w).
Proof.
  intros env data w user Hf Hfind Hpw Hact.
  rewrite (login_present env data w Hf), Hfind, Hpw, Hact. reflexivity.
Qed.

(** X13. The activity gate of login.  For a registered address and a
    password that verifies, the answer depends on [is_active] alone: false
    gives 403 "Account is deactivated", with no token minted and nothing
    written, [last_login] included; true, or no such field, gives 200
    "Login successful". *)
Theorem login_activity_gate :
  forall env data w user,
    login_fields_present env data = true ->
    find_user_by_email (request_email env data) (db w) = Some user ->
    verify_password env (request_password data) (u_password_hash user) = Ok true ->
    match u_is_active user with
    | Some false =>
        login env (Ok (JDict data)) w
        = (Ok (ErrorBody "Account is deactivated", 403), w)
    | _ =>
        exists tokens,
          fst (login env (Ok (JDict data)) w)
          = Ok (AuthBody "Login successful"
                  (mkUserView (u_id user) (u_name user) (u_email user))
                  tokens, 200)
    end.
Proof.
  intros env data w user Hf Hfind Hpw.
  destruct (u_is_active user) as [[|] |] eqn:A.
  - destruct (login_success env data w user Hf Hfind Hpw) as [tk [w' [E _]]];
      [rewrite A; discriminate | ].
    exists tk. rewrite E. reflexivity.
  - apply (login_refuses_deactivated env data w user); assumption.
  - destruct (login_success env data w user Hf Hfind Hpw) as [tk [w' [E _]]];
      [rewrite A; discriminate | ].
    exists tk. rewrite E. reflexivity.
Qed.

Lemma login_activity_gate_witness :
  find_user_by_email (request_email Sample.env_ticking Sample.login_right)
    (db Sample.w_inactive)
  = Some Sample.jo_inactive
  /\ login Sample.env_ticking (Ok (JDict Sample.login_right)) Sample.w_inactive
     = (Ok (ErrorBody "Account is deactivated", 403), Sample.w_inactive).
Proof.
  split; [reflexivity | ].
  exact (login_activity_gate Sample.env_ticking Sample.login_right
           Sample.w_inactive Sample.jo_inactive eq_refl eq_refl eq_refl).
Defined.

(** What a login does to the database: nothing, or the [last_login] of one
    user set. *)
Lemma login_db_cases env get_json w :
  db (snd (login env get_json w)) = db w
  \/ exists id now,
       db (snd (login env get_json w))
       = set_users (db w) (set_last_login id now (users (db w))).
Proof.
  assert (D : (exists data, get_json = Ok (JDict data)
                            /\ login_fields_present env data = true)
              \/ (forall data, get_json = Ok (JDict data) ->
                               login_fields_present env data = false)).
  { destruct get_json as [[| b | n | nz | t | items | data] | x];
      try (right; intros data' E; discriminate E).
    destruct (login_fields_present env data) eqn:V.
    - left. exists data. split; [reflexivity | exact V].
    - right. intros data' E. inversion E; subst. exact V. }
  destruct D as [[data [E V]] | N].
  - subst get_json. rewrite (login_present env data w V).
    destruct (find_user_by_email (request_email env data) (db w)) as [u |];
      [ | now left].
    destruct (verify_password env (request_password data) (u_password_hash u))
      as [[|] | x]; [ | now left | now left].
    destruct (u_is_active u) as [[|] |]; [ | now left | ];
      right; unfold login_granted; cbn [snd db]; eexists _, _; reflexivity.
  - left. destruct (login_not_present env get_json w N) as [msg [code [E _]]].
    rewrite E. reflexivity.
Qed.

Lemma set_last_login_core id t l :
  map user_core (set_last_login id t l) = map user_core l.
Proof.
  induction l as [| u l IH]; cbn [set_last_login map]; [reflexivity | ].
  destruct (String.eqb (u_id u) id); cbn [map]; [reflexivity | now rewrite IH].
Qed.

Lemma map_email_core l :
  map u_email l = map (fun c => snd (fst (fst (fst (fst c))))) (map user_core l).
Proof. rewrite map_map. reflexivity. Qed.

Lemma map_id_core l :
  map u_id l = map (fun c => fst (fst (fst (fst (fst (fst c)))))) (map user_core l).
Proof. rewrite map_map. reflexivity. Qed.

Lemma find_none_not_in_map {A} (key : A -> string) k l :
  find (fun x => String.eqb (key x) k) l = None -> ~ In k (map key l).
Proof.
  intros H C. apply in_map_iff in C. destruct C as [x [Hx Hin]].
  pose proof (find_none _ _ H x Hin) as E. cbn in E.
  rewrite Hx, String.eqb_refl in E. discriminate.
Qed.

Lemma existsb_false_not_in_map {A} (key : A -> string) k l :
  existsb (fun x => String.eqb (key x) k) l = false -> ~ In k (map key l).
Proof.
  intros H C. apply in_map_iff in C. destruct C as [x [Hx Hin]].
  assert (T : existsb (fun x => String.eqb (key x) k) l = true).
  { apply existsb_exists. exists x. split; [exact Hin | ].
    rewrite Hx. apply String.eqb_refl. }
  congruence.
Qed.

Lemma NoDup_snoc {A} (l : list A) x :
  NoDup l -> ~ In x l -> NoDup (l ++ [x]).
Proof.
  intros Hl Hx. induction Hl as [| a l Ha Hl IH]; cbn.
  - constructor; [intros [] | constructor].
  - constructor.
    + intro C. apply in_app_or in C. destruct C as [C | [C | []]].
      * contradiction.
      * subst. apply Hx. now left.
    + apply IH. intro C. apply Hx. now right.
Qed.

(** What one event does to the users: nothing, the [last_login] of one user
    set, or one user appended whose address and identifier are new. *)
Lemma step_users_cases env e w :
  users (db (step env w e)) = users (db w)
  \/ (exists id now,
         users (db (step env w e)) = set_last_login id now (users (db w)))
  \/ (exists u,
         users (db (step env w e)) = (users (db w) ++ [u])%list
         /\ ~ In (u_email u) (map u_email (users (db w)))
         /\ ~ In (u_id u) (map u_id (users (db w)))).
Proof.
  assert (Rrefl : forall d, same_users d d) by reflexivity.
  assert (Rtrans : forall a b c, same_users a b -> same_users b c -> same_users a c)
    by (unfold same_users; intros; congruence).
  assert (Rwatch : forall d l, same_users d (set_watch_history d l)) by reflexivity.
  assert (Rrevoke : forall d r, same_users d (set_tokens d (tokens d ++ [r])))
    by reflexivity.
  destruct e as [r | now]; cbn [step].
  - destruct r as [get_json | get_json | user_id | user_id | token
                  | user_id page per_page | user_id video_id token log_fault];
      cbn [handle].
    + destruct (signup_db_cases env get_json w) as [E | [d [h [_ [F [X E]]]]]];
        rewrite E; [now left | ].
      right; right. exists (new_user env d h w). cbn [users set_users].
      split; [reflexivity | ]. cbn [new_user u_email u_id]. split.
      * apply find_none_not_in_map. exact F.
      * apply existsb_false_not_in_map. exact X.
    + destruct (login_db_cases env get_json w) as [E | [id [now E]]]; rewrite E.
      * now left.
      * right; left. exists id, now. reflexivity.
    + left. symmetry. apply (keeps_refresh same_users Rrefl Rtrans).
    + left. symmetry. apply (keeps_get_current_user same_users Rrefl Rtrans).
    + left. symmetry. apply (keeps_logout same_users Rrefl Rtrans Rrevoke).
    + left. symmetry. apply (keeps_get_dashboard same_users Rrefl Rtrans).
    + left. symmetry. apply (keeps_get_video_stream same_users Rrefl Rtrans Rwatch).
  - left. cbn [db]. unfold ttl_purge. destruct (idx_tokens_ttl (db w)); reflexivity.
Qed.

(** X14. Stored users are append-only: along any run of requests and TTL
    passes no user is deleted or reordered, and the identifier, name,
    address, password hash, creation dates and activity flag of a stored
    user never change; only [last_login] does. *)
Theorem users_are_append_only :
  forall env evs w,
    exists added,
      map user_core (users (db (run env w evs)))
      = (map user_core (users (db w)) ++ added)%list.
Proof.
  intros env evs. induction evs as [| e evs IH]; intro w; cbn [run fold_left].
  - exists []. now rewrite app_nil_r.
  - destruct (IH (step env w e)) as [added E]. unfold run in E. rewrite E.
    destruct (step_users_cases env e w) as [S | [[id [now S]] | [u [S _]]]];
      rewrite S.
    + exists added. reflexivity.
    + exists added. now rewrite set_last_login_core.
    + exists (user_core u :: added). rewrite map_app, <- app_assoc. reflexivity.
Qed.

Lemma step_users_unique env e w :
  users_unique (db w) -> users_unique (db (step env w e)).
Proof.
  intros [He Hi]. unfold users_unique.
  destruct (step_users_cases env e w) as [S | [[id [now S]] | [u [S [Ne Ni]]]]];
    rewrite S.
  - split; assumption.
  - rewrite map_email_core, map_id_core, set_last_login_core,
      <- map_email_core, <- map_id_core. split; assumption.
  - rewrite !map_app. cbn [map]. split; apply NoDup_snoc; assumption.
Qed.

(** X15. Addresses and identifiers stay unique: when no two stored users
    share an address and no two share an identifier, this is still so after
    any run of requests and TTL passes, with or without the unique index on
    the address. *)
Theorem users_stay_unique :
  forall env evs w,
    users_unique (db w) -> users_unique (db (run env w evs)).
Proof.
  intros env evs. induction evs as [| e evs IH]; intros w H; cbn [run fold_left].
  - exact H.
  - apply IH. apply step_users_unique. exact H.
Qed.

Lemma users_stay_unique_witness :
  users_unique (db Sample.w_no_index)
  /\ users_unique (db (run Sample.env_ticking Sample.w_no_index
                         Sample.signup_events)).
Proof.
  assert (H : users_unique (db Sample.w_no_index)).
  { split; cbn; repeat constructor; intros []. }
  split; [exact H | ].
  exact (users_stay_unique Sample.env_ticking Sample.signup_events
           Sample.w_no_index H).
Defined.






(* ===================================================================== *)
(** ** More on the dashboard *)
(* ===================================================================== *)

Lemma int_arg_value env arg default w :
  int_arg env arg default w
  = match arg_value env arg default with
    | Some n => (Ok n, w)
    | None => (Raise ValueError, w)
    end.
Proof.
  unfold int_arg, arg_value. destruct arg as [s |]; [ | reflexivity].
  destruct (py_int env s); reflexivity.
Qed.

Lemma dashboard_cards_show env u page : forall w,
  exists cards w',
    dashboard_cards env u page w = (Ok cards, w')
    /\ Forall2 (card_shows env u) page cards.
Proof.
  induction page as [| video rest IH]; intro w; cbn [dashboard_cards].
  - exists [], w. split; [reflexivity | constructor].
  - unfold bind at 1. unfold generate_playback_token, bind at 1.
    unfold datetime_now at 1. unfold ret at 1. cbv zeta.
    unfold bind at 1. unfold datetime_now at 1.
    match goal with
    | |- context [bind (dashboard_cards env u rest) ?k ?w0] =>
        destruct (IH w0) as [cards [w' [E HF]]];
        rewrite (bind_ok _ k w0 cards w' E)
    end.
    eexists _, w'. split; [reflexivity | ].
    constructor; [ | exact HF].
    unfold card_shows. cbn. repeat split. eexists. reflexivity.
Qed.

Lemma in_firstn_list {A} n : forall (l : list A) x,
  In x (firstn n l) -> In x l.
Proof.
  induction n as [| n IH]; intros [| a l] x H; cbn in H; try contradiction.
  destruct H as [H | H]; [now left | right; now apply IH].
Qed.

Lemma in_skipn_list {A} n : forall (l : list A) x,
  In x (skipn n l) -> In x l.
Proof.
  induction n as [| n IH]; intros [| a l] x H; cbn in H; try contradiction;
    try exact H.
  right. now apply IH.
Qed.

Lemma cursor_limit_sub {A} batch n (l shown : list A) v :
  cursor_limit batch n l = Ok shown -> In v shown -> In v l.
Proof.
  unfold cursor_limit. intros E Hv.
  destruct (INT64_MAX <? Z.abs n); [discriminate | ].
  destruct (n =? 0); [inversion E; subst; exact Hv | ].
  destruct (n <? 0); inversion E; subst;
    eapply in_firstn_list; exact Hv.
Qed.

(** The run of [get_dashboard] from the values of its two arguments. *)
Lemma get_dashboard_run env user_id arg_page arg_per_page w :
  let total := Z.of_nat (List.length (active_videos (db w))) in
  match arg_value env arg_page 1, arg_value env arg_per_page 2 with
  | Some page, Some per_page =>
      if ((page - 1) * per_page <? 0) || (INT64_MAX <? (page - 1) * per_page)
         || (INT64_MAX <? Z.abs per_page) || (per_page =? 0)
      then fst (get_dashboard env user_id arg_page arg_per_page w)
           = Ok (ErrorBody "Internal server error", 500)
      else exists shown cards,
          cursor_limit (first_batch env) per_page
            (skipn (Z.to_nat ((page - 1) * per_page)) (active_videos (db w)))
          = Ok shown
          /\ fst (get_dashboard env user_id arg_page arg_per_page w)
             = Ok (DashboardBody cards
                     (mkPagination page per_page total
                        ((total + per_page - 1) / per_page)), 200)
          /\ Forall2 (card_shows env user_id) shown cards
  | _, _ =>
      fst (get_dashboard env user_id arg_page arg_per_page w)
      = Ok (ErrorBody "Internal server error", 500)
  end.
Proof.
  intro total. subst total. unfold active_videos.
  remember (get_dashboard env user_id arg_page arg_per_page w) as g eqn:G.
  unfold get_dashboard, try_except in G. unfold bind at 1 in G.
  rewrite int_arg_value in G.
  destruct (arg_value env arg_page 1) as [page |]; [ | subst g; reflexivity].
  unfold bind at 1 in G. rewrite int_arg_value in G.
  destruct (arg_value env arg_per_page 2) as [per_page |];
    [ | subst g; reflexivity].
  unfold bind at 1, get_db at 1 in G.
  unfold bind at 1, lift at 1, cursor_skip in G.
  destruct ((page - 1) * per_page <? 0) eqn:Sk; cbn [orb];
    [subst g; reflexivity | ].
  destruct (INT64_MAX <? (page - 1) * per_page) eqn:Sk'; cbn [orb];
    [subst g; reflexivity | ].
  unfold bind at 1, lift at 1 in G.
  destruct (cursor_limit (first_batch env) per_page _) as [shown | x] eqn:L.
  2: { unfold cursor_limit in L.
       destruct (INT64_MAX <? Z.abs per_page); cbn [orb];
         [subst g; reflexivity | ].
       destruct (per_page =? 0); [discriminate L | ].
       destruct (per_page <? 0); discriminate L. }
  match type of G with
  | context [bind (dashboard_cards env user_id ?pg) ?k ?w0] =>
      destruct (dashboard_cards_show env user_id pg w0) as [cards [w' [E HF]]];
      rewrite (bind_ok _ k w0 cards w' E) in G
  end.
  unfold bind, floordiv in G.
  assert (Li : (INT64_MAX <? Z.abs per_page) = false).
  { unfold cursor_limit in L.
    destruct (INT64_MAX <? Z.abs per_page); [discriminate L | reflexivity]. }
  rewrite Li. cbn [orb].
  destruct (per_page =? 0) eqn:Z0; subst g; [reflexivity | ].
  exists shown, cards. split; [reflexivity | ]. split; [reflexivity | exact HF].
Qed.


Lemma get_dashboard_page :
  forall env user_id arg_page arg_per_page w page per_page,
    arg_value env arg_page 1 = Some page ->
    arg_value env arg_per_page 2 = Some per_page ->
    1 <= page -> 1 <= per_page <= INT64_MAX ->
    (page - 1) * per_page <= INT64_MAX ->
    let total := Z.of_nat (List.length (active_videos (db w))) in
    exists cards total_pages,
      fst (get_dashboard env user_id arg_page arg_per_page w)
      = Ok (DashboardBody cards (mkPagination page per_page total total_pages), 200)
      /\ Forall2 (card_shows env user_id)
           (firstn (Z.to_nat per_page)
              (skipn (Z.to_nat ((page - 1) * per_page)) (active_videos (db w))))
           cards
      /\ Z.of_nat (List.length cards) <= per_page
      /\ total <= total_pages * per_page < total + per_page.
Proof.
  intros env user_id arg_page arg_per_page w page per_page Hp Hn H1 H2 H3 total.
  pose proof (get_dashboard_run env user_id arg_page arg_per_page w) as R.
  cbv zeta in R. rewrite Hp, Hn in R.
  assert (Hs : ((page - 1) * per_page <? 0) = false) by (apply Z.ltb_ge; nia).
  assert (Hs' : (INT64_MAX <? (page - 1) * per_page) = false)
    by (apply Z.ltb_ge; exact H3).
  assert (Hl : (INT64_MAX <? Z.abs per_page) = false)
    by (apply Z.ltb_ge; rewrite Z.abs_eq; lia).
  assert (Hz : (per_page =? 0) = false) by (apply Z.eqb_neq; lia).
  rewrite Hs, Hs', Hl, Hz in R. cbn [orb] in R.
  destruct R as [shown [cards [L [E HF]]]].
  unfold cursor_limit in L. rewrite Hl, Hz in L.
  assert (Hneg : (per_page <? 0) = false) by (apply Z.ltb_ge; lia).
  rewrite Hneg in L. inversion L; subst shown. clear L.
  exists cards, ((total + per_page - 1) / per_page).
  split; [exact E | ]. split; [exact HF | ]. split.
  - apply Forall2_length in HF. rewrite <- HF, length_firstn. lia.
  - subst total.
    pose proof (Z.div_mod (Z.of_nat (List.length (active_videos (db w)))
                           + per_page - 1) per_page ltac:(lia)) as D.
    pose proof (Z.mod_pos_bound (Z.of_nat (List.length (active_videos (db w)))
                                 + per_page - 1) per_page ltac:(lia)) as B.
    nia.
Qed.



(** X20. The dashboard never shows a deactivated video: whenever it answers
    200, every card shows a video of the collection whose [is_active] is
    true. *)
Theorem dashboard_shows_only_active :
  forall env user_id arg_page arg_per_page w cards pagination card,
    fst (get_dashboard env user_id arg_page arg_per_page w)
    = Ok (DashboardBody cards pagination, 200) ->
    In card cards ->
    exists video,
      In video (videos (db w)) /\ v_is_active video = Some true
      /\ card_shows env user_id video card.
Proof.
  intros env user_id arg_page arg_per_page w cards pg card H Hin.
  pose proof (get_dashboard_run env user_id arg_page arg_per_page w) as R.
  cbv zeta in R.
  destruct (arg_value env arg_page 1) as [page |];
    [ | rewrite R in H; discriminate].
  destruct (arg_value env arg_per_page 2) as [per_page |];
    [ | rewrite R in H; discriminate].
  match type of R with
  | if ?c then _ else _ => destruct c; [rewrite R in H; discriminate | ]
  end.
  destruct R as [shown [cards' [L [E HF]]]]. rewrite E in H.
  inversion H; subst cards'. clear H E.
  assert (Hsub : forall v, In v shown -> In v (active_videos (db w))).
  { intros v Hv. apply (cursor_limit_sub _ _ _ _ _ L) in Hv.
    eapply in_skipn_list; exact Hv. }
  clear L.
  induction HF as [| v c vs cs Hvc HF IH].
  - contradiction Hin.
  - destruct Hin as [Hc | Hin].
    + subst c. exists v.
      assert (Hv : In v (active_videos (db w))) by (apply Hsub; now left).
      unfold active_videos in Hv.
      apply (proj1 (filter_In _ _ _)) in Hv. destruct Hv as [Hv Ha].
      split; [exact Hv | ]. split; [ | exact Hvc].
      unfold video_active in Ha.
      destruct (v_is_active v) as [[|] |]; try discriminate. reflexivity.
    + apply IH; [exact Hin | ]. intros v' Hv'. apply Hsub. now right.
Qed.

Lemma dashboard_shows_only_active_witness :
  exists cards pagination card,
    fst (get_dashboard Sample.env_ticking "u1" None None Sample.w_three_videos)
    = Ok (DashboardBody cards pagination, 200)
    /\ In card cards
    /\ exists video,
         In video (videos (db Sample.w_three_videos))
         /\ v_is_active video = Some true
         /\ c_id card = v_id video.
Proof.
  eexists _, _, _. split; [vm_compute; reflexivity | ].
  split; [left; reflexivity | ].
  edestruct (dashboard_shows_only_active Sample.env_ticking "u1" None None
               Sample.w_three_videos) as [video [Hv [Ha [Hc _]]]].
  - vm_compute. reflexivity.
  - left. reflexivity.
  - exists video. split; [exact Hv | ]. split; [exact Ha | exact Hc].
Defined.

(** X21. The dashboard only reads: whatever its arguments and its answer,
    it leaves the database as it was. *)
Theorem dashboard_reads_only :
  forall env user_id arg_page arg_per_page w,
    db (snd (get_dashboard env user_id arg_page arg_per_page w)) = db w.
Proof.
  intros env user_id arg_page arg_per_page w.
  apply reads_only, keeps_get_dashboard; [reflexivity | ].
  intros a b c; apply eq_trans.
Qed.

(* ===================================================================== *)
(** ** Seeding the videos *)
(* ===================================================================== *)

Lemma videos_insert_many_cons v rest w :
  videos_insert_many (v :: rest) w
  = if existsb (fun x => String.eqb (v_id x) (v_id v)) (videos (db w))
    then (Raise PyMongoError, w)
    else videos_insert_many rest
           (mkWorld (set_videos (db w) (videos (db w) ++ [v]))
                    (ticks w) (draws w)).
Proof.
  cbn [videos_insert_many]. unfold bind, get_db, put_db, raise.
  destruct (existsb _ (videos (db w))); reflexivity.
Qed.

(** An ordered [insert_many] appends a prefix of the documents to the
    videos and touches nothing else. *)
Lemma videos_insert_many_appends docs : forall w,
  exists inserted,
    db (snd (videos_insert_many docs w))
    = set_videos (db w) (videos (db w) ++ inserted)
    /\ (inserted = docs \/ fst (videos_insert_many docs w) = Raise PyMongoError).
Proof.
  induction docs as [| v rest IH]; intro w.
  - exists []. rewrite app_nil_r. cbn.
    destruct w as [[]]; split; [reflexivity | now left].
  - rewrite videos_insert_many_cons.
    destruct (existsb _ (videos (db w))).
    + exists []. rewrite app_nil_r. cbn.
      destruct w as [[]]; split; [reflexivity | now right].
    + match goal with
      | |- context [videos_insert_many rest ?w0] =>
          destruct (IH w0) as [ins [E Hins]]
      end.
      exists (v :: ins). rewrite E. cbn [db videos set_videos users tokens
        watch_history idx_users_email idx_tokens_jti idx_tokens_ttl].
      rewrite <- app_assoc. split; [reflexivity | ].
      destruct Hins as [Hins | Hins]; [left; now subst | right; exact Hins].
Qed.

Lemma seed_videos_nonempty env w :
  videos (db w) <> [] ->
  seed_videos env w = (Ok (MessageBody "Videos already seeded", 200), w).
Proof.
  intro H. unfold seed_videos, try_except, bind at 1, get_db at 1.
  destruct (videos (db w)) as [| v l]; [contradiction H; reflexivity | ].
  cbn [List.length]. rewrite Nat2Z.inj_succ.
  assert (E : (0 <? Z.succ (Z.of_nat (List.length l))) = true)
    by (apply Z.ltb_lt; lia).
  rewrite E. reflexivity.
Qed.

Lemma seed_videos_empty_run :
  forall env w,
    videos (db w) = [] ->
    NoDup [uuid4 env (draws w); uuid4 env (S (draws w));
           uuid4 env (S (S (draws w))); uuid4 env (S (S (S (draws w))))] ->
    seed_videos env w
    = (Ok (MessageBody "Seeded 4 videos successfully", 201),
       mkWorld (set_videos (db w) (seeded_videos env w))
               (4 + ticks w) (4 + draws w)).
Proof.
  intros env w Hempty Hnd.
  assert (Hneq : forall a b : string, a <> b -> String.eqb a b = false)
    by (intros a b; apply String.eqb_neq).
  inversion Hnd as [| i0 l0 N0 Hnd1]; subst.
  inversion Hnd1 as [| i1 l1 N1 Hnd2]; subst.
  inversion Hnd2 as [| i2 l2 N2 _]; subst.
  cbn [In] in N0, N1, N2.
  unfold seed_videos, sample_video, try_except, bind, get_db, uuid_uuid4,
    datetime_now, ret.
  cbn [db ticks draws]. rewrite Hempty. cbn [List.length Z.of_nat Z.ltb Z.compare].
  rewrite videos_insert_many_cons. cbn [db ticks draws videos v_id].
  rewrite Hempty. cbn [existsb app].
  rewrite videos_insert_many_cons.
  cbn [db ticks draws videos set_videos v_id existsb app].
  rewrite (Hneq (uuid4 env (draws w)) (uuid4 env (S (draws w)))) by (intro C; intuition congruence).
  cbn [orb].
  rewrite videos_insert_many_cons.
  cbn [db ticks draws videos set_videos v_id existsb app].
  rewrite (Hneq (uuid4 env (draws w)) (uuid4 env (S (S (draws w))))) by (intro C; intuition congruence).
  rewrite (Hneq (uuid4 env (S (draws w))) (uuid4 env (S (S (draws w))))) by (intro C; intuition congruence).
  cbn [orb].
  rewrite videos_insert_many_cons.
  cbn [db ticks draws videos set_videos v_id existsb app].
  rewrite (Hneq (uuid4 env (draws w)) (uuid4 env (S (S (S (draws w)))))) by (intro C; intuition congruence).
  rewrite (Hneq (uuid4 env (S (draws w))) (uuid4 env (S (S (S (draws w)))))) by (intro C; intuition congruence).
  rewrite (Hneq (uuid4 env (S (S (draws w)))) (uuid4 env (S (S (S (draws w))))))
    by (intro C; intuition congruence).
  cbn [orb]. reflexivity.
Qed.

(** X22. Seeding an empty collection.  When there is no video and the four
    identifiers drawn are distinct, [seed_videos] answers 201 "Seeded 4
    videos successfully" and stores the four sample videos, all active, in
    the order of the source, each with the identifier drawn for it; users,
    registry and watch history are untouched. *)
Theorem seed_videos_on_empty_collection :
  forall env w,
    videos (db w) = [] ->
    NoDup [uuid4 env (draws w); uuid4 env (S (draws w));
           uuid4 env (S (S (draws w))); uuid4 env (S (S (S (draws w))))] ->
    let r := seed_videos env w in
    fst r = Ok (MessageBody "Seeded 4 videos successfully", 201)
    /\ videos (db (snd r)) = seeded_videos env w
    /\ Forall (fun v => v_is_active v = Some true) (videos (db (snd r)))
    /\ map v_id (videos (db (snd r)))
       = [uuid4 env (draws w); uuid4 env (S (draws w));
          uuid4 env (S (S (draws w))); uuid4 env (S (S (S (draws w))))]
    /\ users (db (snd r)) = users (db w)
    /\ tokens (db (snd r)) = tokens (db w)
    /\ watch_history (db (snd r)) = watch_history (db w).
Proof.
  intros env w Hempty Hnd r. subst r.
  rewrite (seed_videos_empty_run env w Hempty Hnd).
  cbn [fst snd db videos set_videos users tokens watch_history].
  split; [reflexivity | ]. split; [reflexivity | ].
  split; [repeat constructor | ].
  repeat split.
Qed.

Lemma seed_videos_on_empty_collection_witness :
  fst (seed_videos Sample.env_ticking Sample.w_empty)
  = Ok (MessageBody "Seeded 4 videos successfully", 201)
  /\ map v_id (videos (db (snd (seed_videos Sample.env_ticking Sample.w_empty))))
     = ["uuid-0"; "uuid-1"; "uuid-2"; "uuid-3"].
Proof.
  assert (Hnd : NoDup [uuid4 Sample.env_ticking (draws Sample.w_empty);
                       uuid4 Sample.env_ticking (S (draws Sample.w_empty));
                       uuid4 Sample.env_ticking (S (S (draws Sample.w_empty)));
                       uuid4 Sample.env_ticking (S (S (S (draws Sample.w_empty))))]).
  { repeat constructor; cbn; intuition discriminate. }
  destruct (seed_videos_on_empty_collection Sample.env_ticking Sample.w_empty
              eq_refl Hnd) as [H1 [_ [_ [H4 _]]]].
  split; [exact H1 | exact H4].
Defined.

(** X23. Seeding happens once.  Whatever the first call to [seed_videos]
    did and answered, it only appended videos (nothing else in the database
    changed, and the videos that were there stay in place), and a second
    call answers 200 "Videos already seeded" and changes nothing: this holds
    also after a first call that failed half-way, whose videos stay. *)
Theorem seed_videos_happens_once :
  forall env w,
    let w1 := snd (seed_videos env w) in
    (exists inserted,
        db w1 = set_videos (db w) (videos (db w) ++ inserted))
    /\ seed_videos env w1
       = (Ok (MessageBody "Videos already seeded", 200), w1).
Proof.
  intros env w w1. subst w1.
  destruct (videos (db w)) as [| v0 l0] eqn:Hv.
  - assert (E : exists inserted,
               db (snd (seed_videos env w))
               = set_videos (db w) (videos (db w) ++ inserted)
               /\ inserted <> []).
    { unfold seed_videos, sample_video, try_except, bind, get_db, uuid_uuid4,
        datetime_now, ret.
      cbn [db ticks draws]. rewrite Hv.
      cbn [List.length Z.of_nat Z.ltb Z.compare].
      rewrite videos_insert_many_cons. cbn [db ticks draws videos v_id].
      rewrite Hv. cbn [existsb app].
      match goal with
      | |- context [videos_insert_many ?docs ?w0] =>
          destruct (videos_insert_many_appends docs w0) as [ins [E _]];
          destruct (videos_insert_many docs w0) as [[[] | e] w'] eqn:R
      end; cbn [snd fst db] in E |- *; rewrite E;
        cbn [db videos set_videos users tokens watch_history
             idx_users_email idx_tokens_jti idx_tokens_ttl app];
        eexists (_ :: ins); (split; [reflexivity | discriminate]). }
    destruct E as [inserted [E Hne]]. rewrite Hv in E.
    split; [exists inserted; exact E | ].
    apply seed_videos_nonempty. rewrite E. cbn [videos set_videos app].
    exact Hne.
  - assert (Hne : videos (db w) <> []) by (rewrite Hv; discriminate).
    rewrite <- Hv. rewrite (seed_videos_nonempty env w Hne). cbn [snd].
    split; [ | apply seed_videos_nonempty; exact Hne].
    exists []. rewrite app_nil_r. destruct w as [[]]; reflexivity.
Qed.

(** X24. Seed then dashboard.  After the seeding of an empty collection
    with four distinct identifiers, the dashboard without arguments shows
    the first two sample videos, "How Startups Fail" and "The Art of Product
    Management", under the identifiers drawn for them, and reports 4 videos
    on 2 pages of 2. *)
Theorem seed_then_dashboard :
  forall env w user_id,
    videos (db w) = [] ->
    NoDup [uuid4 env (draws w); uuid4 env (S (draws w));
           uuid4 env (S (S (draws w))); uuid4 env (S (S (S (draws w))))] ->
    exists c1 c2,
      fst (get_dashboard env user_id None None (snd (seed_videos env w)))
      = Ok (DashboardBody [c1; c2] (mkPagination 1 2 4 2), 200)
      /\ c_id c1 = uuid4 env (draws w) /\ c_title c1 = "How Startups Fail"
      /\ c_id c2 = uuid4 env (S (draws w))
      /\ c_title c2 = "The Art of Product Management".
Proof.
  intros env w user_id Hempty Hnd.
  rewrite (seed_videos_empty_run env w Hempty Hnd). cbn [snd].
  match goal with
  | |- context [get_dashboard env user_id None None ?w1] =>
      destruct (get_dashboard_page env user_id None None w1 1 2
                  eq_refl eq_refl ltac:(lia) ltac:(unfold INT64_MAX; lia)
                  ltac:(unfold INT64_MAX; lia))
        as [cards [tp [E [HF [_ Htp]]]]]
  end.
  cbn [db active_videos videos set_videos seeded_videos filter video_active
       v_is_active List.length] in E, HF, Htp.
  change (Z.of_nat 4) with 4 in *.
  assert (tp = 2) by lia. subst tp.
  cbn in HF.
  inversion HF as [| v1 c1 vs1 cs1 H1 HF1]; subst.
  inversion HF1 as [| v2 c2 vs2 cs2 H2 HF2]; subst.
  inversion HF2; subst.
  exists c1, c2. split; [exact E | ].
  destruct H1 as [I1 [T1 _]]. destruct H2 as [I2 [T2 _]].
  cbn [v_id v_title] in *. repeat split; assumption.
Qed.

Lemma seed_then_dashboard_witness :
  exists c1 c2,
    fst (get_dashboard Sample.env_ticking "u1" None None
           (snd (seed_videos Sample.env_ticking Sample.w_empty)))
    = Ok (DashboardBody [c1; c2] (mkPagination 1 2 4 2), 200)
    /\ c_id c1 = "uuid-0" /\ c_id c2 = "uuid-1".
Proof.
  assert (Hnd : NoDup [uuid4 Sample.env_ticking (draws Sample.w_empty);
                       uuid4 Sample.env_ticking (S (draws Sample.w_empty));
                       uuid4 Sample.env_ticking (S (S (draws Sample.w_empty)));
                       uuid4 Sample.env_ticking (S (S (S (draws Sample.w_empty))))]).
  { repeat constructor; cbn; intuition discriminate. }
  destruct (seed_then_dashboard Sample.env_ticking Sample.w_empty "u1"
              eq_refl Hnd) as [c1 [c2 [E [I1 [_ [I2 _]]]]]].
  exists c1, c2. split; [exact E | ]. split; [exact I1 | exact I2].
Defined.
